(** * Pensieve (memos): entity enrichment and embedding subsystem

    A shallow embedding of [memos/embedding.py] and [memos/crud.py].

    - [Embedding]: the remote/local embedding paths and the rounding step.
      Vector coordinates are real numbers ([R]): the float32/float64
      arithmetic of numpy is idealised, the structure of the computation
      (which path normalises, what is rounded, which exceptions are caught)
      is kept as written.
    - [Crud]: the relational store as lists of rows, the session as explicit
      state passing in a small state-and-exception monad, and the tag,
      metadata, plugin-status and listing operations. *)

From Stdlib Require Import ZArith String List Reals Lra Lia DecimalString.
From Stdlib Require DecimalFacts DecimalPos.
From stdpp Require Import base option list gmap sets strings sorting.

(** ** Python outcomes

    A Python call either returns a value or raises.  Only the exception
    classes that the modelled functions raise or catch are listed. *)

Inductive PyExn : Type :=
  | ValueError (msg : string)
  | AttributeError (msg : string)
  | KeyError (key : string)
  | JSONDecodeError
  (* httpx.RequestError and some of its subclasses *)
  | ConnectError
  | ReadTimeout
  | TooManyRedirects
  | DecodingError
  (* httpx.HTTPStatusError: the other subclass of httpx.HTTPError *)
  | HTTPStatusError (status_code : Z).

Inductive Result (A : Type) : Type :=
  | Ok (a : A)
  | Raised (e : PyExn).
Arguments Ok {A} a.
Arguments Raised {A} e.

Module Embedding.

Local Open Scope R_scope.

(** *** httpx *)

(** [isinstance(e, httpx.RequestError)]: transport-level failures.  In httpx
    [HTTPStatusError] derives from [HTTPError] directly, not from
    [RequestError]. *)
Definition isinstance_RequestError (e : PyExn) : bool :=
  match e with
  | ConnectError | ReadTimeout | TooManyRedirects | DecodingError => true
  | _ => false
  end.

(** The body of a response: [None] when it is not JSON, otherwise the
    top-level object, whose fields hold batches of vectors. *)
Record Response := {
  status_code : Z;
  json_body : option (gmap string (list (list R)))
}.

(** [Response.is_success] *)
Definition is_success (r : Response) : bool :=
  ((200 <=? status_code r) && (status_code r <=? 299))%Z.

(** [Response.raise_for_status()] *)
Definition raise_for_status (r : Response) : Result Response :=
  if is_success r then Ok r else Raised (HTTPStatusError (status_code r)).

(** [Response.json()] *)
Definition json (r : Response) : Result (gmap string (list (list R))) :=
  match json_body r with
  | Some o => Ok o
  | None => Raised JSONDecodeError
  end.

(** [result[key]] on a dict *)
Definition getitem (o : gmap string (list (list R))) (key : string)
  : Result (list (list R)) :=
  match o !! key with
  | Some v => Ok v
  | None => Raised (KeyError key)
  end.

Definition bind {A B} (r : Result A) (k : A -> Result B) : Result B :=
  match r with
  | Ok a => k a
  | Raised e => Raised e
  end.

(** [try: body except C: handler], with the class [C] given as the
    [isinstance] test. *)
Definition try_except {A} (body : Result A) (C : PyExn -> bool)
    (handler : PyExn -> Result A) : Result A :=
  match body with
  | Ok a => Ok a
  | Raised e => if C e then handler e else Raised e
  end.

(** *** Settings and collaborators *)

Record EmbeddingSettings := {
  endpoint : string;
  model : string;
  use_modelscope : bool;
  use_local : bool
}.

Record Payload := {
  payload_model : string;
  payload_input : list string
}.

(** A loaded sentence-transformer: [model.encode(texts, ...)] followed by
    [.cpu().numpy()], one row per text. *)
Definition Encoder := list string -> list (list R).

(** What the process does not own: the HTTP endpoint, the model hub and the
    model loader. *)
Record World := {
  client_post : string -> Payload -> Result Response;
  snapshot_download : string -> string;
  SentenceTransformer : string -> Encoder
}.

(** The module-level global [model] (the global [device] only selects where
    the encoder runs). *)
Record Globals := { g_model : option Encoder }.

(** *** Numbers *)

(** Largest integer not above [x]. *)
Definition Rfloor (x : R) : Z := (up x - 1)%Z.

(** Rounding to the nearest integer, ties to even. *)
Definition round_half_even (x : R) : Z :=
  let f := Rfloor x in
  let d := x - IZR f in
  if Rlt_dec d (1 / 2) then f
  else if Rlt_dec (1 / 2) d then (f + 1)%Z
  else if Z.even f then f else (f + 1)%Z.

(** Python's [round(x, ndigits)] *)
Definition py_round (x : R) (ndigits : nat) : R :=
  IZR (round_half_even (x * 10 ^ ndigits)) / 10 ^ ndigits.

(** [np.linalg.norm(row, ord=2)] *)
Definition norm2 (row : list R) : R :=
  sqrt (fold_right (fun x acc => x * x + acc) 0 row).

(** *** embedding.py *)

Section WithWorld.

Variable settings : EmbeddingSettings.
Variable world : World.

Definition init_embedding_model (g : Globals) : Globals :=
  let model_dir :=
    if use_modelscope settings
    then snapshot_download world (model settings)
    else model settings in
  {| g_model := Some (SentenceTransformer world model_dir) |}.

Definition generate_embeddings (texts : list string) (g : Globals)
  : list (list R) * Globals :=
  let g := match g_model g with
           | None => init_embedding_model g
           | Some _ => g
           end in
  match texts with
  | [] => ([], g)
  | _ =>
    match g_model g with
    | None => ([], g) (* not reached: the model was initialised above *)
    | Some encode =>
      let embeddings := encode texts in
      (* Normalize embeddings *)
      let norms := map norm2 embeddings in
      let norms := map (fun n => if Req_dec_T n 0 then 1 else n) norms in
      let embeddings :=
        zip_with (fun row n => map (fun x => x / n) row) embeddings norms in
      (embeddings, g)
    end
  end.

Definition get_remote_embeddings (texts : list string)
  : Result (list (list R)) :=
  let payload := {| payload_model := model settings;
                    payload_input := texts |} in
  try_except
    (bind (client_post world (endpoint settings) payload) (fun response =>
     bind (raise_for_status response) (fun _ =>
     bind (json response) (fun result =>
     getitem result "embeddings"))))
    isinstance_RequestError
    (fun e => Ok []).

Definition get_embeddings (texts : list string) (g : Globals)
  : Result (list (list R)) * Globals :=
  let '(embeddings, g) :=
    if use_local settings
    then let '(embeddings, g) := generate_embeddings texts g in
         (Ok embeddings, g)
    else (get_remote_embeddings texts, g) in
  (* Round the embedding values to 5 decimal places *)
  (bind embeddings (fun embeddings =>
     Ok (map (fun embedding => map (fun x => py_round x 5) embedding)
             embeddings)),
   g).

End WithWorld.

(** *** The normaliser in the words of the specification

    "each raw vector is L2-normalized (divide by Euclidean norm; a zero norm
    is treated as norm = 1 ...) and then each coordinate is rounded to 5
    decimal digits". *)

Definition l2_normalize (v : list R) : list R :=
  let n := norm2 v in
  let n := if Req_dec_T n 0 then 1 else n in
  map (fun x => x / n) v.




(** *** The failure cases of the remote call, and sample collaborators *)

Definition request_payload (settings : EmbeddingSettings) (texts : list string) : Payload :=
  {| payload_model := model settings; payload_input := texts |}.

(** The request raises an [httpx.RequestError]. *)
Definition transport_failure (settings : EmbeddingSettings) (world : World)
    (texts : list string) : Prop :=
  exists e,
    client_post world (endpoint settings) (request_payload settings texts) = Raised e
    /\ isinstance_RequestError e = true.

(** The endpoint answers with a status outside 200..299. *)
Definition non_2xx_response (settings : EmbeddingSettings) (world : World)
    (texts : list string) : Prop :=
  exists r,
    client_post world (endpoint settings) (request_payload settings texts) = Ok r
    /\ is_success r = false.

Definition remote_settings : EmbeddingSettings :=
  {| endpoint := "http://localhost:11434/v1/embeddings";
     model := "jinaai/jina-embeddings-v2-base-zh";
     use_modelscope := false;
     use_local := false |}.

(** A world whose endpoint always gives the same outcome. *)
Definition world_of (post : Result Response) : World :=
  {| client_post := fun _ _ => post;
     snapshot_download := fun m => m;
     SentenceTransformer := fun _ texts => map (fun _ => [3; 4]) texts |}.

Definition server_error : Response := {| status_code := 500; json_body := None |}.

Definition unnormalized_reply : Response :=
  {| status_code := 200;
     json_body := Some {[ "embeddings"%string := [[2; 0]] ]} |}.

(** A 200 response whose body is not JSON, and one whose JSON object has no
    ["embeddings"] field. *)
Definition not_json_reply : Response := {| status_code := 200; json_body := None |}.

Definition other_field_reply : Response :=
  {| status_code := 200;
     json_body := Some {[ "data"%string := [[2; 0]] ]} |}.

(** The encoder a call of [generate_embeddings] uses: the loaded one, or the
    one [init_embedding_model] loads. *)
Definition encoder_of (settings : EmbeddingSettings) (world : World) (g : Globals)
  : Encoder :=
  match g_model g with
  | Some encode => encode
  | None =>
    SentenceTransformer world
      (if use_modelscope settings
       then snapshot_download world (model settings)
       else model settings)
  end.

End Embedding.

Module Crud.

Local Open Scope Z_scope.

(** *** Rows

    The table declarations ([models.py]) and the parameter classes
    ([schemas.py]) are not part of the sources at hand; the rows below carry
    the columns that [crud.py] reads and writes, under the names it uses. *)

(** Modelled from the spec: the enumeration [MetadataSource] of [schemas.py]
    is missing; the specification gives "source ∈ {human, plugin-generated}"
    and [crud.py] only ever names [PLUGIN_GENERATED]. *)
Inductive MetadataSource : Type :=
  | HUMAN
  | PLUGIN_GENERATED.

#[global] Instance MetadataSource_eq_dec : EqDecision MetadataSource.
Proof. solve_decision. Defined.

(** Timestamps are whole seconds since the Unix epoch, the value that
    [strftime('%s', ...)] prints for the stored date. *)
Record EntityModel := {
  ent_id : Z;
  ent_library_id : Z;
  ent_folder_id : Z;
  ent_filepath : string;
  ent_size : Z;
  ent_file_created_at : Z;
  ent_file_last_modified_at : Z;
  ent_file_type_group : string;
  ent_last_scan_at : option Z
}.

Record TagModel := {
  tag_id : Z;
  tag_name : string
}.

Record EntityTagModel := {
  et_entity_id : Z;
  et_tag_id : Z;
  et_source : MetadataSource
}.

Record EntityMetadataModel := {
  em_entity_id : Z;
  em_key : string;
  em_value : string;
  em_source : option string;
  em_source_type : option MetadataSource;
  em_data_type : string
}.

Record PluginModel := {
  plugin_id : Z;
  plugin_name : string
}.

Record LibraryPluginModel := {
  lp_library_id : Z;
  lp_plugin_id : Z
}.

Record EntityPluginStatusModel := {
  eps_entity_id : Z;
  eps_plugin_id : Z;
  eps_processed_at : Z
}.

(** *** Parameters of the write calls *)

Record EntityMetadataParam := {
  key : string;
  value : string;
  source : option string;
  data_type : string
}.

Record NewEntityParam := {
  new_filepath : string;
  new_size : Z;
  new_file_created_at : Z;
  new_file_last_modified_at : Z;
  new_file_type_group : string;
  new_folder_id : Z;
  new_tags : option (list string);
  new_metadata_entries : option (list EntityMetadataParam)
}.

Record UpdateEntityParam := {
  upd_size : option Z;
  upd_file_created_at : option Z;
  upd_file_last_modified_at : option Z;
  upd_file_type_group : option string;
  upd_tags : option (list string);
  upd_metadata_entries : option (list EntityMetadataParam)
}.

(** *** The database behind a [Session]

    Each table is the list of its rows in insertion order; [db_now] is the
    clock that [func.now()] reads. *)
Record Store := {
  t_entities : list EntityModel;
  t_tags : list TagModel;
  t_entity_tags : list EntityTagModel;
  t_metadata_entries : list EntityMetadataModel;
  t_plugins : list PluginModel;
  t_library_plugins : list LibraryPluginModel;
  t_entity_plugin_status : list EntityPluginStatusModel;
  db_now : Z
}.

Definition empty_store (now : Z) : Store :=
  {| t_entities := []; t_tags := []; t_entity_tags := [];
     t_metadata_entries := []; t_plugins := []; t_library_plugins := [];
     t_entity_plugin_status := []; db_now := now |}.

Definition with_entities (f : list EntityModel -> list EntityModel) (db : Store) : Store :=
  {| t_entities := f (t_entities db); t_tags := t_tags db;
     t_entity_tags := t_entity_tags db;
     t_metadata_entries := t_metadata_entries db; t_plugins := t_plugins db;
     t_library_plugins := t_library_plugins db;
     t_entity_plugin_status := t_entity_plugin_status db; db_now := db_now db |}.

Definition with_tags (f : list TagModel -> list TagModel) (db : Store) : Store :=
  {| t_entities := t_entities db; t_tags := f (t_tags db);
     t_entity_tags := t_entity_tags db;
     t_metadata_entries := t_metadata_entries db; t_plugins := t_plugins db;
     t_library_plugins := t_library_plugins db;
     t_entity_plugin_status := t_entity_plugin_status db; db_now := db_now db |}.

Definition with_entity_tags (f : list EntityTagModel -> list EntityTagModel)
    (db : Store) : Store :=
  {| t_entities := t_entities db; t_tags := t_tags db;
     t_entity_tags := f (t_entity_tags db);
     t_metadata_entries := t_metadata_entries db; t_plugins := t_plugins db;
     t_library_plugins := t_library_plugins db;
     t_entity_plugin_status := t_entity_plugin_status db; db_now := db_now db |}.

Definition with_metadata_entries
    (f : list EntityMetadataModel -> list EntityMetadataModel) (db : Store) : Store :=
  {| t_entities := t_entities db; t_tags := t_tags db;
     t_entity_tags := t_entity_tags db;
     t_metadata_entries := f (t_metadata_entries db); t_plugins := t_plugins db;
     t_library_plugins := t_library_plugins db;
     t_entity_plugin_status := t_entity_plugin_status db; db_now := db_now db |}.

Definition with_entity_plugin_status
    (f : list EntityPluginStatusModel -> list EntityPluginStatusModel)
    (db : Store) : Store :=
  {| t_entities := t_entities db; t_tags := t_tags db;
     t_entity_tags := t_entity_tags db;
     t_metadata_entries := t_metadata_entries db; t_plugins := t_plugins db;
     t_library_plugins := t_library_plugins db;
     t_entity_plugin_status := f (t_entity_plugin_status db);
     db_now := db_now db |}.

(** *** Calls on a session: state passing with exceptions

    A call runs on the store and either returns a value or raises; both
    outcomes carry the store the call leaves behind. *)
Inductive Outcome (A : Type) : Type :=
  | Returns (a : A) (db : Store)
  | Raises (e : PyExn) (db : Store).
Arguments Returns {A} a db.
Arguments Raises {A} e db.

Definition DB (A : Type) : Type := Store -> Outcome A.

#[global] Instance DB_ret : MRet DB := fun A a db => Returns a db.

#[global] Instance DB_bind : MBind DB := fun A B k m db =>
  match m db with
  | Returns a db' => k a db'
  | Raises e db' => Raises e db'
  end.

Definition raise {A} (e : PyExn) : DB A := fun db => Raises e db.
Definition get_db : DB Store := fun db => Returns db db.
Definition modify (f : Store -> Store) : DB unit := fun db => Returns tt (f db).

(** [for x in l: body(x)] *)
Fixpoint for_each {A} (l : list A) (body : A -> DB unit) : DB unit :=
  match l with
  | [] => mret tt
  | x :: l => body x;; for_each l body
  end.

(** [db.commit()]: every write below is applied to the store as it is
    issued, so committing changes nothing further. *)
Definition db_commit : DB unit := mret tt.

(** [str(n)] and the text printed by [strftime('%s', ...)]: decimal digits,
    with a leading minus sign for negative numbers. *)
Definition str (n : Z) : string := NilZero.string_of_int (Z.to_int n).

(** The integer primary key given to a new row: one more than the largest
    key in the table. *)
Definition next_id (ids : list Z) : Z := 1 + foldr Z.max 0 ids.

(** [query.first()] *)
Definition first {A} (rows : list A) : option A := head rows.

(** *** Entities *)

Definition get_entity_by_id (entity_id : Z) : DB (option EntityModel) :=
  db ← get_db;
  mret (first (filter (fun e => ent_id e = entity_id) (t_entities db))).

(** [db.refresh(db_entity)]: the row as the store now has it. *)
Definition db_refresh (db_entity : EntityModel) : DB EntityModel :=
  row ← get_entity_by_id (ent_id db_entity);
  mret (default db_entity row).

(** [db_entity.last_scan_at = func.now()] *)
Definition set_last_scan_at (entity_id : Z) (db : Store) : Store :=
  with_entities
    (map (fun e =>
       if decide (ent_id e = entity_id)
       then {| ent_id := ent_id e; ent_library_id := ent_library_id e;
               ent_folder_id := ent_folder_id e; ent_filepath := ent_filepath e;
               ent_size := ent_size e;
               ent_file_created_at := ent_file_created_at e;
               ent_file_last_modified_at := ent_file_last_modified_at e;
               ent_file_type_group := ent_file_type_group e;
               ent_last_scan_at := Some (db_now db) |}
       else e)) db.

Definition touch_last_scan_at (entity_id : Z) : DB unit :=
  modify (set_last_scan_at entity_id).

Definition not_found (entity_id : Z) : PyExn :=
  ValueError ("Entity with id " +:+ str entity_id +:+ " not found").

(** *** Tags *)

(** [db.query(TagModel).filter(TagModel.name == tag_name).first()] *)
Definition query_tag_by_name (name : string) : DB (option TagModel) :=
  db ← get_db;
  mret (first (filter (fun t => tag_name t = name) (t_tags db))).

(** [tag = TagModel(name=tag_name); db.add(tag); db.commit(); db.refresh(tag)] *)
Definition create_tag (name : string) : DB TagModel :=
  db ← get_db;
  let tag := {| tag_id := next_id (map tag_id (t_tags db)); tag_name := name |} in
  modify (with_tags (fun rows => rows ++ [tag]));;
  db_commit;;
  mret tag.

(** [db.add(EntityTagModel(...))] *)
Definition add_entity_tag (entity_tag : EntityTagModel) : DB unit :=
  modify (with_entity_tags (fun rows => rows ++ [entity_tag])).

(** The body of the loop over tag names.  [create_entity], [update_entity],
    [update_entity_tags] and [add_new_tags] all spell out this same body:
    look the tag up by name, create it when missing, and add an edge with
    [source=MetadataSource.PLUGIN_GENERATED]. *)
Definition link_tag (entity_id : Z) (name : string) : DB unit :=
  tag ← query_tag_by_name name;
  tag ← match tag with
        | Some tag => mret tag
        | None => create_tag name
        end;
  add_entity_tag {| et_entity_id := entity_id;
                    et_tag_id := tag_id tag;
                    et_source := PLUGIN_GENERATED |}.

(** [db.query(EntityTagModel).filter(EntityTagModel.entity_id == entity_id).delete()] *)
Definition delete_entity_tags (entity_id : Z) : DB unit :=
  modify (with_entity_tags (filter (fun et => et_entity_id et <> entity_id))).

(** [db_entity.tags]: the tags reached through the entity's edges. *)
Definition entity_tags_of (entity_id : Z) (db : Store) : list TagModel :=
  filter (fun t => tag_id t ∈
            map et_tag_id
              (filter (fun et => et_entity_id et = entity_id) (t_entity_tags db)))
         (t_tags db).

Definition update_entity_tags (entity_id : Z) (tags : list string) : DB EntityModel :=
  db_entity ← get_entity_by_id entity_id;
  match db_entity with
  | None => raise (not_found entity_id)
  | Some db_entity =>
    (* Clear existing tags *)
    delete_entity_tags entity_id;;
    for_each tags (link_tag (ent_id db_entity));;
    (* Update last_scan_at in the same transaction *)
    touch_last_scan_at (ent_id db_entity);;
    db_commit;;
    db_refresh db_entity
  end.

Definition add_new_tags (entity_id : Z) (tags : list string) : DB EntityModel :=
  db_entity ← get_entity_by_id entity_id;
  match db_entity with
  | None => raise (not_found entity_id)
  | Some db_entity =>
    db ← get_db;
    let existing_tags : gset string :=
      list_to_set (map tag_name (entity_tags_of (ent_id db_entity) db)) in
    let new_tags : gset string := list_to_set tags ∖ existing_tags in
    for_each (elements new_tags) (link_tag (ent_id db_entity));;
    (* Update last_scan_at in the same transaction *)
    touch_last_scan_at (ent_id db_entity);;
    db_commit;;
    db_refresh db_entity
  end.

(** *** Metadata entries *)

(** [db.add(EntityMetadataModel(...))] with the provenance rule of the
    insert branches: [source_type] is [PLUGIN_GENERATED] exactly when a
    source is given. *)
Definition new_metadata_row (entity_id : Z) (attr : EntityMetadataParam)
  : EntityMetadataModel :=
  {| em_entity_id := entity_id;
     em_key := key attr;
     em_value := value attr;
     em_source := source attr;
     em_source_type :=
       match source attr with
       | Some _ => Some PLUGIN_GENERATED
       | None => None
       end;
     em_data_type := data_type attr |}.

Definition add_metadata (row : EntityMetadataModel) : DB unit :=
  modify (with_metadata_entries (fun rows => rows ++ [row])).

(** The assignments to [existing_metadata.value], [.source], [.source_type]
    and [.data_type] in the update branch. *)
Definition overwrite_metadata (metadata : EntityMetadataParam)
    (existing_metadata : EntityMetadataModel) : EntityMetadataModel :=
  {| em_entity_id := em_entity_id existing_metadata;
     em_key := em_key existing_metadata;
     em_value := value metadata;
     em_source :=
       match source metadata with
       | Some src => Some src
       | None => em_source existing_metadata
       end;
     em_source_type :=
       match source metadata with
       | Some _ => Some PLUGIN_GENERATED
       | None => em_source_type existing_metadata
       end;
     em_data_type := data_type metadata |}.

(** [db_entity.id]: an attribute access, which fails on [None].  The source
    evaluates it, unguarded, while building its first query. *)
Definition getattr_id (db_entity : option EntityModel) : DB Z :=
  match db_entity with
  | Some db_entity => mret (ent_id db_entity)
  | None => raise (AttributeError "'NoneType' object has no attribute 'id'")
  end.

(** The rows loaded by the query are session objects: the dictionary holds
    references to them, here their positions in the table, and an assignment
    to an attribute changes the row at that position.
    [{entry.key: entry for entry in existing_metadata_entries}] keeps the
    last entry of a key. *)
Definition existing_metadata_dict_of (entity_id : Z)
    (rows : list EntityMetadataModel) : gmap string nat :=
  foldl (fun d '(i, entry) => <[em_key entry := i]> d) ∅
        (filter (fun '(i, entry) => em_entity_id entry = entity_id)
                (imap (fun i entry => (i, entry)) rows)).

Definition update_entity_metadata_entries (entity_id : Z)
    (updated_metadata : list EntityMetadataParam) : DB EntityModel :=
  db_entity ← get_entity_by_id entity_id;
  db_entity_id ← getattr_id db_entity;
  db ← get_db;
  let existing_metadata_dict :=
    existing_metadata_dict_of db_entity_id (t_metadata_entries db) in
  for_each updated_metadata (fun metadata =>
    match existing_metadata_dict !! key metadata with
    | Some existing_metadata =>
      modify (with_metadata_entries
                (alter (overwrite_metadata metadata) existing_metadata))
    | None =>
      add_metadata (new_metadata_row db_entity_id metadata)
    end);;
  (* Update last_scan_at in the same transaction *)
  touch_last_scan_at db_entity_id;;
  db_commit;;
  match db_entity with
  | Some db_entity => db_refresh db_entity
  | None => (* not reached: [db_entity.id] has raised above *)
    raise (AttributeError "'NoneType' object has no attribute 'id'")
  end.

(** *** Creating and updating entities *)

(** The metadata row of [create_entity]: there the provenance test is the
    truth value of [attr.source], so an empty source string counts as no
    source ([update_entity] and [update_entity_metadata_entries] test
    [is not None]). *)
Definition created_metadata_row (entity_id : Z) (attr : EntityMetadataParam)
  : EntityMetadataModel :=
  {| em_entity_id := entity_id;
     em_key := key attr;
     em_value := value attr;
     em_source := source attr;
     em_source_type :=
       match source attr with
       | Some src => if decide (src = ""%string) then None else Some PLUGIN_GENERATED
       | None => None
       end;
     em_data_type := data_type attr |}.

(** The row built from the dumped parameter fields and [library_id], once
    added and refreshed: the store assigns the id.  [create_entity]
    sets no [last_scan_at]. *)
Definition new_entity_row (library_id : Z) (entity : NewEntityParam) (db : Store)
  : EntityModel :=
  {| ent_id := next_id (map ent_id (t_entities db));
     ent_library_id := library_id;
     ent_folder_id := new_folder_id entity;
     ent_filepath := new_filepath entity;
     ent_size := new_size entity;
     ent_file_created_at := new_file_created_at entity;
     ent_file_last_modified_at := new_file_last_modified_at entity;
     ent_file_type_group := new_file_type_group entity;
     ent_last_scan_at := None |}.

Definition create_entity (library_id : Z) (entity : NewEntityParam) : DB EntityModel :=
  let tags := new_tags entity in
  let metadata_entries := new_metadata_entries entity in
  db ← get_db;
  let db_entity := new_entity_row library_id entity db in
  modify (with_entities (fun rows => rows ++ [db_entity]));;
  db_commit;;
  (* Handle tags separately *)
  match tags with
  | Some ((_ :: _) as tags) =>
    for_each tags (link_tag (ent_id db_entity));;
    db_commit
  | _ => mret tt
  end;;
  (* Handle attrs separately *)
  match metadata_entries with
  | Some ((_ :: _) as metadata_entries) =>
    for_each metadata_entries (fun attr =>
      add_metadata (created_metadata_row (ent_id db_entity) attr))
  | _ => mret tt
  end;;
  db_commit;;
  db_refresh db_entity.

(** [setattr(db_entity, key, value)] for the fields of the patch that are
    not [None]. *)
Definition patch_entity (p : UpdateEntityParam) (e : EntityModel) : EntityModel :=
  {| ent_id := ent_id e; ent_library_id := ent_library_id e;
     ent_folder_id := ent_folder_id e; ent_filepath := ent_filepath e;
     ent_size := default (ent_size e) (upd_size p);
     ent_file_created_at := default (ent_file_created_at e) (upd_file_created_at p);
     ent_file_last_modified_at :=
       default (ent_file_last_modified_at e) (upd_file_last_modified_at p);
     ent_file_type_group := default (ent_file_type_group e) (upd_file_type_group p);
     ent_last_scan_at := ent_last_scan_at e |}.

Definition update_entity (entity_id : Z) (updated_entity : UpdateEntityParam)
  : DB EntityModel :=
  db_entity ← get_entity_by_id entity_id;
  match db_entity with
  | None => raise (not_found entity_id)
  | Some db_entity =>
    (* Update the main fields of the entity *)
    modify (with_entities
              (map (fun e => if decide (ent_id e = ent_id db_entity)
                             then patch_entity updated_entity e else e)));;
    (* Handle tags separately *)
    match upd_tags updated_entity with
    | Some tags =>
      delete_entity_tags entity_id;;
      db_commit;;
      for_each tags (link_tag (ent_id db_entity));;
      db_commit
    | None => mret tt
    end;;
    (* Handle attrs separately *)
    match upd_metadata_entries updated_entity with
    | Some metadata_entries =>
      modify (with_metadata_entries
                (filter (fun em => em_entity_id em <> entity_id)));;
      db_commit;;
      for_each metadata_entries (fun attr =>
        add_metadata (new_metadata_row (ent_id db_entity) attr))
    | None => mret tt
    end;;
    db_commit;;
    db_refresh db_entity
  end.

(** *** Plugin status *)

(** Modelled from the spec: the primary key of [entity_plugin_status] is
    declared in the missing [models.py]; the specification gives the table
    as "unique on (entity_id, plugin_id)" and the code comments
    [db.merge] with "merge will insert or update".  [merge] looks the row up
    by that key: a row that exists keeps its [processed_at] (the merged
    object sets no other column), a missing row is inserted with the
    column default. *)
Definition merge_status (entity_id plugin_id : Z) (db : Store) : Store :=
  if decide (Exists (fun r => eps_entity_id r = entity_id
                              /\ eps_plugin_id r = plugin_id)
                    (t_entity_plugin_status db))
  then db
  else with_entity_plugin_status
         (fun rows => rows ++ [{| eps_entity_id := entity_id;
                                  eps_plugin_id := plugin_id;
                                  eps_processed_at := db_now db |}]) db.

Definition db_merge_status (entity_id plugin_id : Z) : DB unit :=
  modify (merge_status entity_id plugin_id).

Definition record_plugin_processed (entity_id plugin_id : Z) : DB unit :=
  db_merge_status entity_id plugin_id;;
  db_commit.

(** The first query joins [plugins] with [library_plugins] on the plugin id
    and keeps the rows of the library; [list(set(...) - set(...))] lists the
    difference in the order of the set's enumeration. *)
Definition get_pending_plugins (entity_id library_id : Z) (db : Store) : list Z :=
  (* Get all plugins associated with the library *)
  let library_plugins :=
    p ← t_plugins db;
    lp ← filter (fun lp => lp_plugin_id lp = plugin_id p) (t_library_plugins db);
    if decide (lp_library_id lp = library_id) then [p] else [] in
  let library_plugin_ids := map plugin_id library_plugins in
  (* Get plugins that have already processed this entity *)
  let processed_plugins :=
    filter (fun s => eps_entity_id s = entity_id) (t_entity_plugin_status db) in
  let processed_plugin_ids := map eps_plugin_id processed_plugins in
  (* Return plugins that need to process this entity *)
  elements ((list_to_set library_plugin_ids : gset Z)
            ∖ list_to_set processed_plugin_ids).

(** *** Ordered reads *)

(** [ORDER BY file_created_at DESC] / [ASC] *)
Definition created_desc : relation EntityModel :=
  fun a b => ent_file_created_at b <= ent_file_created_at a.
Definition created_asc : relation EntityModel :=
  fun a b => ent_file_created_at a <= ent_file_created_at b.

#[global] Instance created_desc_dec a b : Decision (created_desc a b).
Proof. unfold created_desc. apply _. Defined.
#[global] Instance created_asc_dec a b : Decision (created_asc a b).
Proof. unfold created_asc. apply _. Defined.

(** [LIMIT n]: SQLite reads a negative bound as "no limit". *)
Definition sql_limit {A} (n : Z) (rows : list A) : list A :=
  if decide (n < 0) then rows else take (Z.to_nat n) rows.

(** [x BETWEEN lo AND hi] on TEXT values: both sides of the comparison in
    [list_entities] are strings, [strftime] returning text and the bounds
    being passed as [str(start)] and [str(end)], so they are compared byte
    by byte. *)
Definition text_between (x lo hi : string) : bool :=
  String.leb lo x && String.leb x hi.

Definition list_entities (db : Store) (limit : Z)
    (library_ids : option (list Z)) (start end_ : option Z) : list EntityModel :=
  let query := filter (fun e => ent_file_type_group e = "image"%string) (t_entities db) in
  let query :=
    match library_ids with
    | Some ((_ :: _) as library_ids) =>
      filter (fun e => ent_library_id e ∈ library_ids) query
    | _ => query
    end in
  let query :=
    match start, end_ with
    | Some start, Some end_ =>
      filter (fun e => text_between (str (ent_file_created_at e))
                                    (str start) (str end_) = true) query
    | _, _ => query
    end in
  sql_limit limit (merge_sort created_desc query).

Definition get_entity_context (db : Store) (library_id entity_id prev next : Z)
  : list EntityModel * list EntityModel :=
  (* First get the target entity to get its timestamp *)
  let target_entity :=
    first (filter (fun e => ent_id e = entity_id /\ ent_library_id e = library_id)
                  (t_entities db)) in
  match target_entity with
  | None => ([], [])
  | Some target_entity =>
    (* Get previous entities *)
    let prev_entities :=
      if decide (prev > 0)
      then reverse
             (sql_limit prev
                (merge_sort created_desc
                   (filter (fun e => ent_library_id e = library_id
                                     /\ ent_file_created_at e
                                        < ent_file_created_at target_entity)
                           (t_entities db))))
      else [] in
    (* Get next entities *)
    let next_entities :=
      if decide (next > 0)
      then sql_limit next
             (merge_sort created_asc
                (filter (fun e => ent_library_id e = library_id
                                  /\ ent_file_created_at e
                                     > ent_file_created_at target_entity)
                        (t_entities db)))
      else [] in
    (prev_entities, next_entities)
  end.

(** *** Sequences of write calls, and the notions the properties speak of *)

Inductive Call : Type :=
  | CreateEntity (library_id : Z) (entity : NewEntityParam)
  | UpdateEntity (entity_id : Z) (updated_entity : UpdateEntityParam)
  | UpdateEntityTags (entity_id : Z) (tags : list string)
  | AddNewTags (entity_id : Z) (tags : list string)
  | UpdateEntityMetadataEntries (entity_id : Z) (updated_metadata : list EntityMetadataParam)
  | RecordPluginProcessed (entity_id plugin_id : Z).

Definition store_of {A} (o : Outcome A) : Store :=
  match o with
  | Returns _ db => db
  | Raises _ db => db
  end.

(** The store after a call, whether it returned or raised. *)
Definition run_call (c : Call) (db : Store) : Store :=
  match c with
  | CreateEntity library_id entity => store_of (create_entity library_id entity db)
  | UpdateEntity entity_id updated_entity =>
    store_of (update_entity entity_id updated_entity db)
  | UpdateEntityTags entity_id tags => store_of (update_entity_tags entity_id tags db)
  | AddNewTags entity_id tags => store_of (add_new_tags entity_id tags db)
  | UpdateEntityMetadataEntries entity_id updated_metadata =>
    store_of (update_entity_metadata_entries entity_id updated_metadata db)
  | RecordPluginProcessed entity_id plugin_id =>
    store_of (record_plugin_processed entity_id plugin_id db)
  end.

Definition run_calls (cs : list Call) (db : Store) : Store :=
  foldl (fun db c => run_call c db) db cs.

(** No row of [entities] has this id. *)
Definition entity_absent (entity_id : Z) (db : Store) : Prop :=
  Forall (fun e => ent_id e <> entity_id) (t_entities db).

Definition entity_present (entity_id : Z) (db : Store) : Prop :=
  entity_id ∈ map ent_id (t_entities db).

#[global] Instance entity_present_dec entity_id db : Decision (entity_present entity_id db).
Proof. unfold entity_present. apply _. Defined.

(** The (entity, tag) pair of an attribution edge. *)
Definition edge_key (et : EntityTagModel) : Z * Z := (et_entity_id et, et_tag_id et).

(** At most one attribution edge per (entity, tag) pair. *)
Definition edges_unique (db : Store) : Prop :=
  NoDup (map edge_key (t_entity_tags db)).

(** The edges that attach a tag of the given name to the entity. *)
Definition edges_of_tag_name (db : Store) (entity_id : Z) (name : string)
  : list EntityTagModel :=
  filter (fun et => et_entity_id et = entity_id
                    /\ et_tag_id et ∈
                         map tag_id (filter (fun t => tag_name t = name) (t_tags db)))
         (t_entity_tags db).

(** Integrity of the tag tables: tag ids and tag names are unique, and every
    edge refers to a stored tag and a stored entity. *)
Record store_wf (db : Store) : Prop := {
  wf_tag_ids : NoDup (map tag_id (t_tags db));
  wf_tag_names : NoDup (map tag_name (t_tags db));
  wf_edge_tag : Forall (fun et => et_tag_id et ∈ map tag_id (t_tags db))
                       (t_entity_tags db);
  wf_edge_entity : Forall (fun et => et_entity_id et ∈ map ent_id (t_entities db))
                          (t_entity_tags db)
}.

(** The tag lists a call hands to the creating and replacing paths name no
    tag twice. *)
Definition distinct_tag_names (c : Call) : Prop :=
  match c with
  | CreateEntity _ entity => NoDup (default [] (new_tags entity))
  | UpdateEntity _ updated_entity => NoDup (default [] (upd_tags updated_entity))
  | UpdateEntityTags _ tags => NoDup tags
  | _ => True
  end.

(** *** The tag loop as a function on stores

    [link_tag] never raises; these definitions name the store it leaves, so
    that the loops over tag names can be read as folds. *)

(** The tag a name resolves to, and the store once it exists. *)
Definition tag_for (name : string) (db : Store) : TagModel * Store :=
  match first (filter (fun t => tag_name t = name) (t_tags db)) with
  | Some tag => (tag, db)
  | None =>
    let tag := {| tag_id := next_id (map tag_id (t_tags db)); tag_name := name |} in
    (tag, with_tags (fun rows => rows ++ [tag]) db)
  end.

Definition linked_store (entity_id : Z) (name : string) (db : Store) : Store :=
  let '(tag, db1) := tag_for name db in
  with_entity_tags
    (fun rows => rows ++ [{| et_entity_id := entity_id; et_tag_id := tag_id tag;
                             et_source := PLUGIN_GENERATED |}]) db1.

(** The names of the tags attached to an entity. *)
Definition tag_names_of (entity_id : Z) (db : Store) : list string :=
  map tag_name (entity_tags_of entity_id db).

(** *** The stores the tag-writing calls leave

    For a stored entity none of these calls raises; the definitions below
    name the store each one ends in. *)

Definition replaced_tags_store (entity_id : Z) (tags : list string) (db : Store) : Store :=
  set_last_scan_at entity_id
    (foldl (fun db name => linked_store entity_id name db)
       (with_entity_tags (filter (fun et => et_entity_id et <> entity_id)) db) tags).

Definition added_tags_store (entity_id : Z) (tags : list string) (db : Store) : Store :=
  set_last_scan_at entity_id
    (foldl (fun db name => linked_store entity_id name db) db
       (elements ((list_to_set tags : gset string)
                  ∖ list_to_set (tag_names_of entity_id db)))).

Definition created_store (library_id : Z) (entity : NewEntityParam) (db : Store) : Store :=
  let db_entity := new_entity_row library_id entity db in
  with_metadata_entries
    (fun rows => rows ++ map (created_metadata_row (ent_id db_entity))
                             (default [] (new_metadata_entries entity)))
    (foldl (fun db name => linked_store (ent_id db_entity) name db)
       (with_entities (fun rows => rows ++ [db_entity]) db)
       (default [] (new_tags entity))).

Definition updated_store (entity_id : Z) (updated_entity : UpdateEntityParam)
    (db : Store) : Store :=
  let db1 :=
    with_entities
      (map (fun e => if decide (ent_id e = entity_id)
                     then patch_entity updated_entity e else e)) db in
  let db2 :=
    match upd_tags updated_entity with
    | Some tags =>
      foldl (fun db name => linked_store entity_id name db)
        (with_entity_tags (filter (fun et => et_entity_id et <> entity_id)) db1) tags
    | None => db1
    end in
  match upd_metadata_entries updated_entity with
  | Some metadata_entries =>
    with_metadata_entries
      (fun rows => filter (fun em => em_entity_id em <> entity_id) rows
                   ++ map (new_metadata_row entity_id) metadata_entries) db2
  | None => db2
  end.

(** Two stores with the same tags and edges and the same entity ids. *)
Definition same_tag_view (db db' : Store) : Prop :=
  t_tags db' = t_tags db
  /\ t_entity_tags db' = t_entity_tags db
  /\ map ent_id (t_entities db') = map ent_id (t_entities db).

(** *** The metadata loop as a function on the table *)

(** One turn of the loop of [update_entity_metadata_entries]:
    [existing_metadata_dict] is the dictionary built before the loop. *)
Definition upsert_row (entity_id : Z) (existing_metadata_dict : gmap string nat)
    (rows : list EntityMetadataModel) (metadata : EntityMetadataParam)
  : list EntityMetadataModel :=
  match existing_metadata_dict !! key metadata with
  | Some existing_metadata => alter (overwrite_metadata metadata) existing_metadata rows
  | None => rows ++ [new_metadata_row entity_id metadata]
  end.

(** The store that [update_entity_metadata_entries] leaves for a stored
    entity. *)
Definition upserted_store (entity_id : Z) (updated_metadata : list EntityMetadataParam)
    (db : Store) : Store :=
  set_last_scan_at entity_id
    (with_metadata_entries
       (fun rows =>
          foldl (upsert_row entity_id (existing_metadata_dict_of entity_id rows))
                rows updated_metadata) db).

(** The metadata entries of an entity under a key. *)
Definition metadata_for (entity_id : Z) (k : string) (rows : list EntityMetadataModel)
  : list EntityMetadataModel :=
  filter (fun r => em_entity_id r = entity_id /\ em_key r = k) rows.


(** *** Sample data *)

Definition image_entity (id library_id created : Z) : EntityModel :=
  {| ent_id := id; ent_library_id := library_id; ent_folder_id := 1;
     ent_filepath := "/screenshots/" +:+ str id +:+ ".png"; ent_size := 1024;
     ent_file_created_at := created; ent_file_last_modified_at := created;
     ent_file_type_group := "image"; ent_last_scan_at := None |}.

(** Library 1 with five screenshots created at 10, 20, 30, 40 and 50, and
    plugins 1, 2 and 3 bound to it; entity 1 has been processed by plugin 1. *)
Definition sample_store : Store :=
  {| t_entities := [image_entity 1 1 10; image_entity 2 1 20; image_entity 3 1 30;
                    image_entity 4 1 40; image_entity 5 1 50];
     t_tags := [];
     t_entity_tags := [];
     t_metadata_entries := [];
     t_plugins := [{| plugin_id := 1; plugin_name := "A" |};
                   {| plugin_id := 2; plugin_name := "B" |};
                   {| plugin_id := 3; plugin_name := "C" |}];
     t_library_plugins := [{| lp_library_id := 1; lp_plugin_id := 1 |};
                           {| lp_library_id := 1; lp_plugin_id := 2 |};
                           {| lp_library_id := 1; lp_plugin_id := 3 |}];
     t_entity_plugin_status := [{| eps_entity_id := 1; eps_plugin_id := 1;
                                   eps_processed_at := 100 |}];
     db_now := 1000 |}.

Definition ocr_text (text : string) (src : option string) : EntityMetadataParam :=
  {| key := "ocr_result"; value := text; source := src; data_type := "text" |}.

Definition new_screenshot (created : Z) (tags : option (list string)) : NewEntityParam :=
  {| new_filepath := "/screenshots/new.png"; new_size := 2048;
     new_file_created_at := created; new_file_last_modified_at := created;
     new_file_type_group := "image"; new_folder_id := 1;
     new_tags := tags; new_metadata_entries := None |}.

(** The store after a call, by cases: a call on a missing entity raises
    before it writes. *)
Definition store_after (c : Call) (db : Store) : Store :=
  match c with
  | CreateEntity library_id entity => created_store library_id entity db
  | UpdateEntity entity_id updated_entity =>
    if decide (entity_present entity_id db)
    then updated_store entity_id updated_entity db else db
  | UpdateEntityTags entity_id tags =>
    if decide (entity_present entity_id db)
    then replaced_tags_store entity_id tags db else db
  | AddNewTags entity_id tags =>
    if decide (entity_present entity_id db)
    then added_tags_store entity_id tags db else db
  | UpdateEntityMetadataEntries entity_id updated_metadata =>
    if decide (entity_present entity_id db)
    then upserted_store entity_id updated_metadata db else db
  | RecordPluginProcessed entity_id plugin_id => merge_status entity_id plugin_id db
  end.

(** The edges a call leaves: some of the old ones, then those it created,
    all of them plugin-generated. *)
Definition edges_kept_and_created (db db' : Store) : Prop :=
  exists kept created,
    t_entity_tags db' = kept ++ created
    /\ kept `sublist_of` t_entity_tags db
    /\ Forall (fun et => et_source et = PLUGIN_GENERATED) created.

(** *** Plugin status, in the words of the specification *)

(** The plugin is bound to the library. *)
Definition plugin_bound (db : Store) (library_id p : Z) : Prop :=
  exists plugin lp,
    plugin ∈ t_plugins db /\ plugin_id plugin = p
    /\ lp ∈ t_library_plugins db
    /\ lp_plugin_id lp = p /\ lp_library_id lp = library_id.

(** The status rows of an (entity, plugin) pair. *)
Definition status_rows (db : Store) (entity_id p : Z) : list EntityPluginStatusModel :=
  filter (fun s => eps_entity_id s = entity_id /\ eps_plugin_id s = p)
         (t_entity_plugin_status db).

(** The plugin has a completion status row for the entity. *)
Definition has_status (db : Store) (entity_id p : Z) : Prop :=
  status_rows db entity_id p <> [].

(** *** The context of an entity, in the words of the specification *)

(** The anchor: the entity of that id in that library. *)
Definition anchor (db : Store) (library_id entity_id : Z) : option EntityModel :=
  first (filter (fun e => ent_id e = entity_id /\ ent_library_id e = library_id)
                (t_entities db)).

(** The entities of the library created strictly before, respectively
    strictly after, the target. *)
Definition earlier (db : Store) (library_id : Z) (target : EntityModel)
  : list EntityModel :=
  filter (fun e => ent_library_id e = library_id
                   /\ ent_file_created_at e < ent_file_created_at target)
         (t_entities db).

Definition later (db : Store) (library_id : Z) (target : EntityModel)
  : list EntityModel :=
  filter (fun e => ent_library_id e = library_id
                   /\ ent_file_created_at e > ent_file_created_at target)
         (t_entities db).

(** A context of a target: up to [prev] of the earlier entities, the nearest
    ones, and up to [next] of the later ones, the nearest ones, each list in
    ascending order of creation. *)
Record context_of (db : Store) (library_id : Z) (target : EntityModel)
    (prev next : Z) (previous following : list EntityModel) : Prop := {
  ctx_previous_earlier : previous ⊆ earlier db library_id target;
  ctx_following_later : following ⊆ later db library_id target;
  ctx_previous_count :
    length previous = Nat.min (Z.to_nat prev) (length (earlier db library_id target));
  ctx_following_count :
    length following = Nat.min (Z.to_nat next) (length (later db library_id target));
  ctx_previous_ascending : StronglySorted created_asc previous;
  ctx_following_ascending : StronglySorted created_asc following;
  ctx_previous_nearest :
    forall e b, e ∈ earlier db library_id target -> e ∉ previous -> b ∈ previous ->
                ent_file_created_at e <= ent_file_created_at b;
  ctx_following_nearest :
    forall e a, e ∈ later db library_id target -> e ∉ following -> a ∈ following ->
                ent_file_created_at a <= ent_file_created_at e
}.

(** *** The listing, in the words of the specification *)

(** The creation time lies within the inclusive bounds. *)
Definition within_window (start end_ : Z) (e : EntityModel) : Prop :=
  start <= ent_file_created_at e <= end_.

(** One screenshot, taken on 2020-09-13 (epoch 1600000000). *)
Definition photo_store : Store :=
  {| t_entities := [image_entity 1 1 1600000000];
     t_tags := []; t_entity_tags := []; t_metadata_entries := [];
     t_plugins := []; t_library_plugins := []; t_entity_plugin_status := [];
     db_now := 1700000000 |}.

(** *** Decimal text *)

(** The number a string of decimal digits denotes, read from the most
    significant digit on. *)
Fixpoint value_acc (d : Decimal.uint) (acc : N) : N :=
  match d with
  | Decimal.Nil => acc
  | Decimal.D0 l => value_acc l (10 * acc + 0)%N
  | Decimal.D1 l => value_acc l (10 * acc + 1)%N
  | Decimal.D2 l => value_acc l (10 * acc + 2)%N
  | Decimal.D3 l => value_acc l (10 * acc + 3)%N
  | Decimal.D4 l => value_acc l (10 * acc + 4)%N
  | Decimal.D5 l => value_acc l (10 * acc + 5)%N
  | Decimal.D6 l => value_acc l (10 * acc + 6)%N
  | Decimal.D7 l => value_acc l (10 * acc + 7)%N
  | Decimal.D8 l => value_acc l (10 * acc + 8)%N
  | Decimal.D9 l => value_acc l (10 * acc + 9)%N
  end.

(** The number has as many decimal digits as the reference. *)
Definition same_width (reference n : Z) : Prop :=
  0 <= n /\ String.length (str n) = String.length (str reference).

(** What the listing should keep, in the words of the specification. *)
Definition listed (db : Store) (library_ids : option (list Z)) (start end_ : Z)
    (e : EntityModel) : Prop :=
  e ∈ t_entities db
  /\ ent_file_type_group e = "image"%string
  /\ match library_ids with
     | Some ((_ :: _) as ids) => ent_library_id e ∈ ids
     | _ => True
     end
  /\ within_window start end_ e.

(** *** Touching and removing entities *)

Definition touch_entity (entity_id : Z) : DB bool :=
  db ← get_db;
  let db_entity := first (filter (fun e => ent_id e = entity_id) (t_entities db)) in
  match db_entity with
  | Some db_entity =>
    touch_last_scan_at (ent_id db_entity);;
    db_commit;;
    db_refresh db_entity;;
    mret true
  | None => mret false
  end.

(** The search tables kept beside [entities]: the rows of [entities_fts] are
    addressed by their [id] and those of [entities_vec_v2] by their [rowid];
    each row is listed by that number, the only column [crud.py] names. *)
Record SearchTables := {
  entities_fts : list Z;
  entities_vec_v2 : list Z
}.

(** [db.delete(entity)]: the row leaves [entities].  Modelled from the spec:
    what happens to the rows that depend on the entity is declared by the
    relationships of the missing [models.py]; the specification gives
    "deletes the relational row (plus cascading child rows)", so the edges,
    metadata entries and status rows of the entity leave with it. *)
Definition db_delete_entity (entity : EntityModel) : DB unit :=
  modify (fun db =>
    {| t_entities := filter (fun e => ent_id e <> ent_id entity) (t_entities db);
       t_tags := t_tags db;
       t_entity_tags :=
         filter (fun et => et_entity_id et <> ent_id entity) (t_entity_tags db);
       t_metadata_entries :=
         filter (fun em => em_entity_id em <> ent_id entity) (t_metadata_entries db);
       t_plugins := t_plugins db;
       t_library_plugins := t_library_plugins db;
       t_entity_plugin_status :=
         filter (fun s => eps_entity_id s <> ent_id entity) (t_entity_plugin_status db);
       db_now := db_now db |}).

(** The session holds the relational store; the two [DELETE] statements act
    on the search tables, which are passed in and handed back. *)
Definition remove_entity (entity_id : Z) (search : SearchTables) : DB SearchTables :=
  db ← get_db;
  let entity := first (filter (fun e => ent_id e = entity_id) (t_entities db)) in
  match entity with
  | Some entity =>
    (* Delete the entity from FTS and vec tables first *)
    let search :=
      {| entities_fts := filter (fun id => id <> entity_id) (entities_fts search);
         entities_vec_v2 := entities_vec_v2 search |} in
    let search :=
      {| entities_fts := entities_fts search;
         entities_vec_v2 := filter (fun rowid => rowid <> entity_id) (entities_vec_v2 search) |} in
    (* Then delete the entity itself *)
    db_delete_entity entity;;
    db_commit;;
    mret search
  | None => raise (not_found entity_id)
  end.

(** *** Binding plugins to libraries *)

Definition with_library_plugins
    (f : list LibraryPluginModel -> list LibraryPluginModel) (db : Store) : Store :=
  {| t_entities := t_entities db; t_tags := t_tags db;
     t_entity_tags := t_entity_tags db;
     t_metadata_entries := t_metadata_entries db; t_plugins := t_plugins db;
     t_library_plugins := f (t_library_plugins db);
     t_entity_plugin_status := t_entity_plugin_status db; db_now := db_now db |}.

Definition add_plugin_to_library (library_id plugin_id : Z) : DB unit :=
  let library_plugin := {| lp_library_id := library_id; lp_plugin_id := plugin_id |} in
  modify (with_library_plugins (fun rows => rows ++ [library_plugin]));;
  db_commit.

(** [db.delete(row)] for the row a query found first: that one row leaves
    the table, later rows that match stay. *)
Fixpoint delete_first {A} (P : A -> Prop) `{!forall x, Decision (P x)}
    (rows : list A) : list A :=
  match rows with
  | [] => []
  | row :: rows => if decide (P row) then rows else row :: delete_first P rows
  end.

Definition not_in_library (plugin_id library_id : Z) : PyExn :=
  ValueError ("Plugin " +:+ str plugin_id +:+ " not found in library " +:+ str library_id).

Definition remove_plugin_from_library (library_id plugin_id : Z) : DB unit :=
  db ← get_db;
  let library_plugin :=
    first (filter (fun lp => lp_library_id lp = library_id /\ lp_plugin_id lp = plugin_id)
                  (t_library_plugins db)) in
  match library_plugin with
  | Some library_plugin =>
    modify (with_library_plugins
              (delete_first (fun lp => lp_library_id lp = library_id
                                       /\ lp_plugin_id lp = plugin_id)));;
    db_commit
  | None => raise (not_in_library plugin_id library_id)
  end.

(** *** Further reads *)


Definition get_entities_by_filepaths (filepaths : list string) (db : Store)
  : list EntityModel :=
  filter (fun e => ent_filepath e ∈ filepaths) (t_entities db).

Definition find_entities_by_ids (entity_ids : list Z) (db : Store) : list EntityModel :=
  filter (fun e => ent_id e ∈ entity_ids) (t_entities db).

(** [ORDER BY file_last_modified_at ASC] *)
Definition modified_asc : relation EntityModel :=
  fun a b => ent_file_last_modified_at a <= ent_file_last_modified_at b.

#[global] Instance modified_asc_dec a b : Decision (modified_asc a b).
Proof. unfold modified_asc. apply _. Defined.

(** [OFFSET n]: SQLite reads a negative offset as zero. *)
Definition sql_offset {A} (n : Z) (rows : list A) : list A := drop (Z.to_nat n) rows.

Section WithLike.

(** [filepath LIKE pattern], the operator of the database, applied to a
    path and a pattern. *)
Variable like : string -> string -> bool.

Definition get_entities_of_folder (library_id folder_id : Z) (db : Store)
    (limit offset : Z) (path_prefix : option string) : list EntityModel * Z :=
  (* First get the entity IDs with limit and offset *)
  let id_query :=
    filter (fun e => ent_folder_id e = folder_id /\ ent_library_id e = library_id)
           (t_entities db) in
  (* Add path_prefix filter if provided *)
  let id_query :=
    match path_prefix with
    | Some path_prefix =>
      if decide (path_prefix = ""%string) then id_query
      else filter (fun e => like (ent_filepath e) (path_prefix +:+ "%") = true) id_query
    | None => id_query
    end in
  let total_count := Z.of_nat (length id_query) in
  let entity_ids :=
    map ent_id (sql_limit limit (sql_offset offset (merge_sort modified_asc id_query))) in
  (* Then get the full entities with relationships for those IDs *)
  let entities :=
    merge_sort modified_asc (filter (fun e => ent_id e ∈ entity_ids) (t_entities db)) in
  (entities, total_count).

End WithLike.

(** *** Notions for the further properties *)

(** The value a call returned, if it returned. *)
Definition returned {A} (o : Outcome A) : option A :=
  match o with
  | Returns a _ => Some a
  | Raises _ _ => None
  end.

(** Two rows that agree on every column but [last_scan_at]. *)
Definition same_file (a b : EntityModel) : Prop :=
  ent_id a = ent_id b
  /\ ent_library_id a = ent_library_id b
  /\ ent_folder_id a = ent_folder_id b
  /\ ent_filepath a = ent_filepath b
  /\ ent_size a = ent_size b
  /\ ent_file_created_at a = ent_file_created_at b
  /\ ent_file_last_modified_at a = ent_file_last_modified_at b
  /\ ent_file_type_group a = ent_file_type_group b.

(** The rows that bind the plugin to the library. *)
Definition binding_rows (db : Store) (library_id p : Z) : list LibraryPluginModel :=
  filter (fun lp => lp_library_id lp = library_id /\ lp_plugin_id lp = p)
         (t_library_plugins db).

(** The row once [last_scan_at] is set. *)
Definition scanned_at (now : Z) (e : EntityModel) : EntityModel :=
  {| ent_id := ent_id e; ent_library_id := ent_library_id e;
     ent_folder_id := ent_folder_id e; ent_filepath := ent_filepath e;
     ent_size := ent_size e;
     ent_file_created_at := ent_file_created_at e;
     ent_file_last_modified_at := ent_file_last_modified_at e;
     ent_file_type_group := ent_file_type_group e;
     ent_last_scan_at := Some now |}.

Definition sample_search : SearchTables :=
  {| entities_fts := [1; 2; 3]; entities_vec_v2 := [1; 3] |}.

(** A call that ends in [db.refresh(db_entity)] returns the row of that id
    as the store has it when the call ends. *)
Definition ends_in_refresh (e : EntityModel) (call : DB EntityModel) : Prop :=
  forall db row db',
    call db = Returns row db' ->
    row = default e (first (filter (fun x => ent_id x = ent_id e) (t_entities db'))).



(** *** The listings, as the code filters them *)

(** What the filters of [list_entities] keep. *)
Definition kept_by_list_entities (library_ids : option (list Z)) (start end_ : option Z)
    (e : EntityModel) : Prop :=
  ent_file_type_group e = "image"%string
  /\ match library_ids with
     | Some ((_ :: _) as ids) => ent_library_id e ∈ ids
     | _ => True
     end
  /\ match start, end_ with
     | Some start, Some end_ =>
       text_between (str (ent_file_created_at e)) (str start) (str end_) = true
     | _, _ => True
     end.

(** What the filters of [get_entities_of_folder] keep. *)
Definition kept_by_folder_listing (like : string -> string -> bool)
    (library_id folder_id : Z) (path_prefix : option string) (e : EntityModel) : Prop :=
  (ent_folder_id e = folder_id /\ ent_library_id e = library_id)
  /\ match path_prefix with
     | Some prefix =>
       prefix = ""%string \/ like (ent_filepath e) (prefix +:+ "%") = true
     | None => True
     end.

#[global] Instance kept_by_folder_listing_dec like library_id folder_id path_prefix e :
  Decision (kept_by_folder_listing like library_id folder_id path_prefix e).
Proof. unfold kept_by_folder_listing. destruct path_prefix; apply _. Defined.

(** The page of the folder listing: the rows kept, in ascending order of
    modification, without the first [offset] and cut at [limit]. *)
Definition folder_page (like : string -> string -> bool) (library_id folder_id : Z)
    (db : Store) (limit offset : Z) (path_prefix : option string) : list EntityModel :=
  sql_limit limit
    (sql_offset offset
       (merge_sort modified_asc
          (filter (kept_by_folder_listing like library_id folder_id path_prefix)
                  (t_entities db)))).

(** A [LIKE] that reads its pattern as a plain prefix followed by [%]. *)
Definition prefix_like (path pattern : string) : bool :=
  match pattern with
  | EmptyString => false
  | _ => String.prefix (String.substring 0 (String.length pattern - 1) pattern) path
  end.


End Crud.

(** * Properties of the embedding path *)

Section EmbeddingFacts.

Import Embedding.
Local Open Scope R_scope.












(** The masked, broadcast division of [generate_embeddings] normalises each
    row on its own. *)
Lemma numpy_normalize_rows (embeddings : list (list R)) :
  zip_with (fun row n => map (fun x => x / n) row) embeddings
    (map (fun n => if Req_dec_T n 0 then 1 else n) (map norm2 embeddings))
  = map l2_normalize embeddings.
Proof.
  induction embeddings as [|row rows IH]; simpl; [done | ].
  by rewrite IH.
Qed.


(** C1, as amended: when the request fails at transport level, that is with
    an [httpx.RequestError], [get_remote_embeddings] returns the empty list
    and raises nothing. *)
Theorem get_remote_embeddings_transport_failure settings world texts e :
  client_post world (endpoint settings) (request_payload settings texts) = Raised e ->
  isinstance_RequestError e = true ->
  get_remote_embeddings settings world texts = Ok [].
Proof.
  intros Hpost Hcls. unfold get_remote_embeddings.
  fold (request_payload settings texts). rewrite Hpost. simpl.
  by rewrite Hcls.
Qed.

Lemma get_remote_embeddings_transport_failure_witness :
  get_remote_embeddings remote_settings (world_of (Raised ConnectError)) ["a"; "b"]%string = Ok [].
Proof.
  apply (get_remote_embeddings_transport_failure remote_settings
           (world_of (Raised ConnectError)) ["a"; "b"]%string ConnectError);
    reflexivity.
Defined.

(** A response outside 200..299 makes [raise_for_status] raise
    [HTTPStatusError], which the [except httpx.RequestError] clause does not
    catch. *)
Lemma get_remote_embeddings_non_2xx settings world texts r :
  client_post world (endpoint settings) (request_payload settings texts) = Ok r ->
  is_success r = false ->
  get_remote_embeddings settings world texts = Raised (HTTPStatusError (status_code r)).
Proof.
  intros Hpost Hst. unfold get_remote_embeddings.
  fold (request_payload settings texts). rewrite Hpost. simpl.
  unfold raise_for_status. rewrite Hst. done.
Qed.

(** C1 as stated fails: a 500 response for [["a"; "b"]] raises instead of
    giving the empty list. *)
Lemma non_2xx_response_propagates :
  ~ (forall settings world texts,
       transport_failure settings world texts \/ non_2xx_response settings world texts ->
       get_remote_embeddings settings world texts = Ok []).
Proof.
  intros H.
  specialize (H remote_settings (world_of (Ok server_error)) ["a"; "b"]%string).
  rewrite (get_remote_embeddings_non_2xx _ _ _ server_error) in H by reflexivity.
  discriminate H. right. exists server_error. split; reflexivity.
Qed.



(** ** The local path *)



Lemma generate_embeddings_eq settings world texts g :
  generate_embeddings settings world texts g
  = (match texts with
     | [] => []
     | _ => map l2_normalize (encoder_of settings world g texts)
     end,
     {| g_model := Some (encoder_of settings world g) |}).
Proof.
  unfold generate_embeddings, encoder_of, init_embedding_model.
  destruct g as [[encode|]]; destruct texts as [|t texts]; simpl; try done;
    by rewrite numpy_normalize_rows.
Qed.


(** X21 (generate_embeddings, init_embedding_model): the model is loaded on
    the first call, also when the list of texts is empty, and kept: after
    any call the global holds an encoder, a call that finds an encoder
    leaves the global as it is, and so every later call uses the encoder of
    the first. *)
Theorem generate_embeddings_loads_the_model_once settings world texts g :
  let g1 := snd (generate_embeddings settings world texts g) in
  g_model g1 = Some (encoder_of settings world g)
  /\ (is_Some (g_model g) -> g1 = g)
  /\ forall later, snd (generate_embeddings settings world later g1) = g1
                   /\ encoder_of settings world g1 = encoder_of settings world g.
Proof.
  cbv zeta. rewrite generate_embeddings_eq. simpl. split_and!.
  - done.
  - destruct g as [[encode|]]; intros [? ?]; by simplify_eq/=.
  - intros later. by rewrite generate_embeddings_eq.
Qed.

(** ** The remote path *)

(** X22 (get_remote_embeddings, get_embeddings): when the endpoint answers
    with a 2xx status and a JSON object that has an ["embeddings"] field,
    [get_remote_embeddings] returns that field as received, and
    [get_embeddings], configured for the remote path, returns it with every
    coordinate rounded to 5 decimals. *)
Theorem get_remote_embeddings_returns_the_reply settings world texts r o vectors :
  client_post world (endpoint settings) (request_payload settings texts) = Ok r ->
  is_success r = true ->
  json_body r = Some o ->
  o !! "embeddings"%string = Some vectors ->
  get_remote_embeddings settings world texts = Ok vectors
  /\ (use_local settings = false ->
      forall g, get_embeddings settings world texts g
                = (Ok (map (map (fun x => py_round x 5)) vectors), g)).
Proof.
  intros Hpost Hst Hbody Hfield.
  assert (Hremote : get_remote_embeddings settings world texts = Ok vectors).
  { unfold get_remote_embeddings. fold (request_payload settings texts).
    rewrite Hpost. simpl. unfold raise_for_status. rewrite Hst. simpl.
    unfold json. rewrite Hbody. simpl. unfold getitem. by rewrite Hfield. }
  split; [done | ]. intros Hlocal g. unfold get_embeddings.
  by rewrite Hlocal, Hremote.
Qed.

Lemma get_remote_embeddings_returns_the_reply_witness :
  get_remote_embeddings remote_settings (world_of (Ok unnormalized_reply)) ["a"%string]
  = Ok [[2; 0]]
  /\ (use_local remote_settings = false ->
      forall g, get_embeddings remote_settings (world_of (Ok unnormalized_reply))
                               ["a"%string] g
                = (Ok (map (map (fun x => py_round x 5)) [[2; 0]]), g)).
Proof.
  apply (get_remote_embeddings_returns_the_reply remote_settings
           (world_of (Ok unnormalized_reply)) ["a"%string] unnormalized_reply
           {[ "embeddings"%string := [[2; 0]] ]} [[2; 0]]).
  - reflexivity.
  - reflexivity.
  - reflexivity.
  - apply lookup_singleton_eq.
Defined.

(** X23 (get_remote_embeddings, get_embeddings): a 2xx answer that cannot be
    used is an error, not an empty result: a body that is not JSON raises
    the decoding error of [response.json()], a JSON object without an
    ["embeddings"] field raises [KeyError]; neither is an
    [httpx.RequestError], so both leave [get_remote_embeddings] and, on the
    remote path, [get_embeddings]. *)
Theorem get_remote_embeddings_unusable_reply settings world texts r :
  client_post world (endpoint settings) (request_payload settings texts) = Ok r ->
  is_success r = true ->
  (forall o, json_body r = Some o -> o !! "embeddings"%string = None) ->
  let e := match json_body r with
           | None => JSONDecodeError
           | Some _ => KeyError "embeddings"
           end in
  get_remote_embeddings settings world texts = Raised e
  /\ (use_local settings = false ->
      forall g, get_embeddings settings world texts g = (Raised e, g)).
Proof.
  intros Hpost Hst Hfield. cbv zeta.
  assert (Hremote : get_remote_embeddings settings world texts
                    = Raised match json_body r with
                             | None => JSONDecodeError
                             | Some _ => KeyError "embeddings"
                             end).
  { unfold get_remote_embeddings. fold (request_payload settings texts).
    rewrite Hpost. simpl. unfold raise_for_status. rewrite Hst. simpl.
    unfold json. destruct (json_body r) as [o|] eqn:Hbody; simpl; [ | done ].
    unfold getitem. by rewrite (Hfield o). }
  split; [done | ]. intros Hlocal g. unfold get_embeddings.
  by rewrite Hlocal, Hremote.
Qed.

Lemma get_remote_embeddings_unusable_reply_witness :
  (get_remote_embeddings remote_settings (world_of (Ok not_json_reply)) ["a"%string]
   = Raised JSONDecodeError
   /\ (use_local remote_settings = false ->
       forall g, get_embeddings remote_settings (world_of (Ok not_json_reply)) ["a"%string] g
                 = (Raised JSONDecodeError, g)))
  /\ (get_remote_embeddings remote_settings (world_of (Ok other_field_reply)) ["a"%string]
      = Raised (KeyError "embeddings")
      /\ (use_local remote_settings = false ->
          forall g, get_embeddings remote_settings (world_of (Ok other_field_reply))
                                   ["a"%string] g
                    = (Raised (KeyError "embeddings"), g))).
Proof.
  split.
  - apply (get_remote_embeddings_unusable_reply remote_settings
             (world_of (Ok not_json_reply)) ["a"%string] not_json_reply);
      [reflexivity | reflexivity | ].
    intros o Ho. discriminate Ho.
  - apply (get_remote_embeddings_unusable_reply remote_settings
             (world_of (Ok other_field_reply)) ["a"%string] other_field_reply);
      [reflexivity | reflexivity | ].
    intros o Ho. injection Ho as <-. by apply lookup_singleton_ne.
Defined.

(** ** Rounding *)




End EmbeddingFacts.

(** * Properties of the store operations *)

Section CrudFacts.

Import Crud.
Local Open Scope Z_scope.

(** ** Running calls *)

Lemma bind_returns {A B} (m : DB A) (k : A -> DB B) db a db' :
  m db = Returns a db' -> (m ≫= k) db = k a db'.
Proof. intros Hm. unfold mbind, DB_bind. by rewrite Hm. Qed.

Lemma first_filter_Some {A} (P : A -> Prop) `{!forall x, Decision (P x)} (l : list A) x :
  first (filter P l) = Some x -> x ∈ l /\ P x.
Proof.
  unfold first. intros Hh%head_Some_elem_of.
  by apply list_elem_of_filter in Hh as [? ?].
Qed.

Lemma first_filter_None {A} (P : A -> Prop) `{!forall x, Decision (P x)} (l : list A) :
  first (filter P l) = None -> Forall (fun x => ~ P x) l.
Proof.
  unfold first. intros Hh%head_None. apply Forall_forall. intros x Hx HP.
  assert (x ∈ filter P l) as Hin by by apply list_elem_of_filter.
  rewrite Hh in Hin. by apply elem_of_nil in Hin.
Qed.

Lemma get_entity_by_id_eq entity_id db :
  get_entity_by_id entity_id db
  = Returns (first (filter (fun e => ent_id e = entity_id) (t_entities db))) db.
Proof. reflexivity. Qed.

Lemma get_entity_by_id_absent entity_id db :
  entity_absent entity_id db -> get_entity_by_id entity_id db = Returns None db.
Proof.
  unfold entity_absent. intros Habs. rewrite get_entity_by_id_eq.
  destruct (first _) as [e|] eqn:Hq; [ | done ].
  apply first_filter_Some in Hq as [Hin Hid].
  rewrite Forall_forall in Habs. by destruct (Habs e Hin).
Qed.

(** ** Missing entities *)

Lemma update_entity_metadata_entries_absent entity_id updated_metadata db :
  entity_absent entity_id db ->
  update_entity_metadata_entries entity_id updated_metadata db
  = Raises (AttributeError "'NoneType' object has no attribute 'id'") db.
Proof.
  intros Hget%get_entity_by_id_absent. unfold update_entity_metadata_entries.
  by rewrite (bind_returns _ _ _ _ _ Hget).
Qed.

Lemma add_new_tags_absent entity_id tags db :
  entity_absent entity_id db ->
  add_new_tags entity_id tags db = Raises (not_found entity_id) db.
Proof.
  intros Hget%get_entity_by_id_absent. unfold add_new_tags.
  by rewrite (bind_returns _ _ _ _ _ Hget).
Qed.

Lemma update_entity_tags_absent entity_id tags db :
  entity_absent entity_id db ->
  update_entity_tags entity_id tags db = Raises (not_found entity_id) db.
Proof.
  intros Hget%get_entity_by_id_absent. unfold update_entity_tags.
  by rewrite (bind_returns _ _ _ _ _ Hget).
Qed.

Lemma update_entity_absent entity_id updated_entity db :
  entity_absent entity_id db ->
  update_entity entity_id updated_entity db = Raises (not_found entity_id) db.
Proof.
  intros Hget%get_entity_by_id_absent. unfold update_entity.
  by rewrite (bind_returns _ _ _ _ _ Hget).
Qed.

(** C10: for an entity id that is not in the store,
    [update_entity_metadata_entries] fails on the attribute access
    [db_entity.id] with an [AttributeError] and leaves the store as it was,
    whereas [add_new_tags] and [update_entity_tags] raise the named
    not-found [ValueError]. *)
Theorem update_metadata_of_missing_entity entity_id updated_metadata tags db :
  entity_absent entity_id db ->
  (exists msg, update_entity_metadata_entries entity_id updated_metadata db
               = Raises (AttributeError msg) db)
  /\ add_new_tags entity_id tags db = Raises (not_found entity_id) db
  /\ update_entity_tags entity_id tags db = Raises (not_found entity_id) db.
Proof.
  intros Habs. split_and!.
  - eexists. by apply update_entity_metadata_entries_absent.
  - by apply add_new_tags_absent.
  - by apply update_entity_tags_absent.
Qed.

(** ** The tag loop *)

(** [link_tag] always returns, in the store [linked_store] names. *)
Lemma link_tag_eq entity_id name db :
  link_tag entity_id name db = Returns tt (linked_store entity_id name db).
Proof.
  unfold link_tag, linked_store, tag_for, query_tag_by_name, create_tag, add_entity_tag.
  unfold mbind, DB_bind, get_db, mret, DB_ret, modify, db_commit.
  by destruct (first _).
Qed.

Lemma for_each_link_tag entity_id names db :
  for_each names (link_tag entity_id) db
  = Returns tt (foldl (fun db name => linked_store entity_id name db) db names).
Proof.
  revert db. induction names as [|n names IH]; intros db; simpl; [done | ].
  rewrite (bind_returns _ _ _ _ _ (link_tag_eq _ _ _)). apply IH.
Qed.

Lemma next_id_fresh (ids : list Z) : forall i, i ∈ ids -> i < next_id ids.
Proof.
  unfold next_id. induction ids as [|j ids IH]; intros i Hi.
  - by apply elem_of_nil in Hi.
  - apply elem_of_cons in Hi as [-> | Hi]; simpl; [ lia | ].
    specialize (IH i Hi). lia.
Qed.

Lemma next_id_not_in (ids : list Z) : next_id ids ∉ ids.
Proof. intros H%next_id_fresh. lia. Qed.

Lemma NoDup_fmap_eq {A B} (f : A -> B) (l : list A) x y :
  NoDup (map f l) -> x ∈ l -> y ∈ l -> f x = f y -> x = y.
Proof.
  induction l as [|a l IH]; simpl; intros Hnd Hx Hy Hf.
  - by apply elem_of_nil in Hx.
  - apply NoDup_cons in Hnd as [Ha Hnd].
    apply elem_of_cons in Hx as [-> | Hx]; apply elem_of_cons in Hy as [-> | Hy].
    + done.
    + exfalso. apply Ha. rewrite Hf. apply list_elem_of_fmap. eauto.
    + exfalso. apply Ha. rewrite <- Hf. apply list_elem_of_fmap. eauto.
    + by apply IH.
Qed.

(** What [tag_for] gives: a stored tag of the wanted name, in a store that
    differs from the old one by at most that tag. *)
Lemma tag_for_spec name db tag db1 :
  tag_for name db = (tag, db1) ->
  tag_name tag = name
  /\ tag ∈ t_tags db1
  /\ t_entities db1 = t_entities db
  /\ t_entity_tags db1 = t_entity_tags db
  /\ t_metadata_entries db1 = t_metadata_entries db
  /\ t_entity_plugin_status db1 = t_entity_plugin_status db
  /\ ((t_tags db1 = t_tags db /\ tag ∈ t_tags db)
      \/ (t_tags db1 = t_tags db ++ [tag]
          /\ tag_id tag = next_id (map tag_id (t_tags db))
          /\ name ∉ map tag_name (t_tags db))).
Proof.
  unfold tag_for. destruct (first _) as [t|] eqn:Hq; intros [= <- <-].
  - apply first_filter_Some in Hq as [Hin Hn]. naive_solver.
  - apply first_filter_None in Hq. simpl. repeat split; try done.
    + apply elem_of_app. right. by left.
    + right. repeat split; try done.
      intros (t & Ht & Hin)%list_elem_of_fmap.
      rewrite Forall_forall in Hq. by apply (Hq t).
Qed.

Lemma tag_for_wf name db tag db1 :
  tag_for name db = (tag, db1) -> store_wf db -> store_wf db1.
Proof.
  intros Hfor [Hids Hnames Hfk Hfe].
  destruct (tag_for_spec _ _ _ _ Hfor) as (Hn & Hin & He & Het & _ & _ & Hcase).
  destruct Hcase as [[Ht _] | (Ht & Hid & Hfresh)].
  - split; by rewrite ?Ht, ?He, ?Het.
  - split; rewrite ?Ht, ?He, ?Het, ?map_app; simpl; try done.
    + apply NoDup_app. split; [done | ]. split; [ | apply NoDup_singleton ].
      intros i Hi Hi'%list_elem_of_singleton. subst i. rewrite Hid in Hi.
      by apply next_id_not_in in Hi.
    + apply NoDup_app. split; [done | ]. split; [ | apply NoDup_singleton ].
      intros m Hm Hm'%list_elem_of_singleton. subst m. by rewrite Hn in Hm.
    + eapply Forall_impl; [ exact Hfk | ]. simpl. intros et Hin'.
      apply elem_of_app. by left.
Qed.

Lemma elem_of_tag_names_of m e db :
  m ∈ tag_names_of e db <->
  exists t et, t ∈ t_tags db /\ et ∈ t_entity_tags db /\ et_entity_id et = e
               /\ et_tag_id et = tag_id t /\ tag_name t = m.
Proof.
  unfold tag_names_of, entity_tags_of. rewrite list_elem_of_fmap. split.
  - intros (t & -> & Ht). apply list_elem_of_filter in Ht as [Hid Ht].
    apply list_elem_of_fmap in Hid as (et & Hid & Het).
    apply list_elem_of_filter in Het as [He Het]. naive_solver.
  - intros (t & et & Ht & Het & He & Hid & Hm). exists t. split; [done | ].
    apply list_elem_of_filter. split; [ | done ].
    apply list_elem_of_fmap. exists et. split; [done | ].
    by apply list_elem_of_filter.
Qed.

Lemma linked_store_frame entity_id name db :
  t_entities (linked_store entity_id name db) = t_entities db
  /\ t_metadata_entries (linked_store entity_id name db) = t_metadata_entries db
  /\ t_entity_plugin_status (linked_store entity_id name db) = t_entity_plugin_status db
  /\ exists tag, t_entity_tags (linked_store entity_id name db)
                 = t_entity_tags db ++ [{| et_entity_id := entity_id;
                                           et_tag_id := tag_id tag;
                                           et_source := PLUGIN_GENERATED |}].
Proof.
  unfold linked_store. destruct (tag_for name db) as [tag db1] eqn:Hfor.
  destruct (tag_for_spec _ _ _ _ Hfor) as (_ & _ & He & Het & Hm & Hs & _).
  simpl. rewrite Het. eauto.
Qed.

Lemma linked_store_spec entity_id name db :
  store_wf db -> entity_present entity_id db ->
  store_wf (linked_store entity_id name db)
  /\ (forall m, m ∈ tag_names_of entity_id (linked_store entity_id name db)
                <-> m ∈ tag_names_of entity_id db \/ m = name)
  /\ (edges_unique db -> name ∉ tag_names_of entity_id db ->
       edges_unique (linked_store entity_id name db)).
Proof.
  intros Hwf Hpres. unfold linked_store.
  destruct (tag_for name db) as [tag db1] eqn:Hfor.
  pose proof (tag_for_wf _ _ _ _ Hfor Hwf) as [Hids1 Hnames1 Hfk1 Hfe1].
  destruct (tag_for_spec _ _ _ _ Hfor) as (Hn & Hin & He & Het & _ & _ & Hcase).
  destruct Hwf as [Hids Hnames Hfk Hfe].
  set (edge := {| et_entity_id := entity_id; et_tag_id := tag_id tag;
                  et_source := PLUGIN_GENERATED |}).
  assert (Hold : forall et, et ∈ t_entity_tags db ->
                   et_tag_id et = tag_id tag -> tag ∈ t_tags db).
  { intros et Hetin Hid. destruct Hcase as [[_ ?] | (_ & Hfresh & _)]; [done | ].
    rewrite Forall_forall in Hfk. specialize (Hfk et Hetin).
    rewrite Hid, Hfresh in Hfk. by apply next_id_not_in in Hfk. }
  split; [ | split ].
  - split; simpl; try done.
    + apply Forall_app. split; [done | ]. apply Forall_singleton.
      apply list_elem_of_fmap. eauto.
    + apply Forall_app. split; [done | ]. apply Forall_singleton.
      by rewrite He.
  - intros m. rewrite !elem_of_tag_names_of. simpl. split.
    + intros (t & et & Ht & Hetin & Hent & Hid & Hm).
      apply elem_of_app in Hetin as [Hetin | ->%list_elem_of_singleton].
      * left. exists t, et. rewrite Het in Hetin. repeat split; try done.
        destruct Hcase as [[Htags _] | (Htags & Hfresh & _)]; rewrite Htags in Ht;
          [done | ]. apply elem_of_app in Ht as [Ht | ->%list_elem_of_singleton];
          [done | ].
        exfalso. rewrite Forall_forall in Hfk. specialize (Hfk et Hetin).
        rewrite Hid, Hfresh in Hfk. by apply next_id_not_in in Hfk.
      * right. simpl in Hid. rewrite <- Hm, <- Hn. f_equal.
        by apply (NoDup_fmap_eq tag_id (t_tags db1)).
    + intros [(t & et & Ht & Hetin & Hent & Hid & Hm) | ->].
      * exists t, et. repeat split; try done.
        -- destruct Hcase as [[-> _] | (-> & _)]; [done | ].
           apply elem_of_app. by left.
        -- apply elem_of_app. left. by rewrite Het.
      * exists tag, edge. repeat split; try done.
        apply elem_of_app. right. by left.
  - intros Huniq Hnew. unfold edges_unique in *. simpl.
    rewrite map_app, Het. apply NoDup_app. split; [done | ].
    split; [ | apply NoDup_singleton ].
    intros k Hk Hk'%list_elem_of_singleton. subst k.
    apply list_elem_of_fmap in Hk as (et & Hkey & Hetin).
    unfold edge_key in Hkey. simpl in Hkey. injection Hkey as Hent Hid.
    apply Hnew. apply elem_of_tag_names_of. exists tag, et.
    repeat split; try done. by apply (Hold et).
Qed.

(** The whole loop over tag names. *)
Lemma linked_fold_spec entity_id names db :
  store_wf db -> entity_present entity_id db ->
  let db' := foldl (fun db name => linked_store entity_id name db) db names in
  store_wf db'
  /\ t_entities db' = t_entities db
  /\ t_metadata_entries db' = t_metadata_entries db
  /\ t_entity_plugin_status db' = t_entity_plugin_status db
  /\ (forall m, m ∈ tag_names_of entity_id db'
                <-> m ∈ tag_names_of entity_id db \/ m ∈ names)
  /\ (edges_unique db -> NoDup names ->
      (forall n, n ∈ names -> n ∉ tag_names_of entity_id db) ->
      edges_unique db')
  /\ Forall (fun et => et ∈ t_entity_tags db \/ et_source et = PLUGIN_GENERATED)
            (t_entity_tags db').
Proof.
  revert db. induction names as [|n names IH]; intros db Hwf Hpres; cbv zeta; simpl.
  - split_and!; try done.
    + intros m. split; [ by left | ]. intros [? | Hm]; [done | ].
      by apply elem_of_nil in Hm.
    + apply Forall_forall. intros et Het. by left.
  - destruct (linked_store_spec entity_id n db Hwf Hpres) as (Hwf1 & Hnames1 & Huniq1).
    destruct (linked_store_frame entity_id n db) as (He1 & Hm1 & Hs1 & tag & Het1).
    assert (Hpres1 : entity_present entity_id (linked_store entity_id n db)).
    { unfold entity_present. by rewrite He1. }
    pose proof (IH _ Hwf1 Hpres1) as IH'. cbv zeta in IH'.
    destruct IH' as (Hwf' & He' & Hm' & Hs' & Hnames' & Huniq' & Hsrc').
    split_and!.
    + done.
    + by rewrite He', He1.
    + by rewrite Hm', Hm1.
    + by rewrite Hs', Hs1.
    + intros m. rewrite Hnames', Hnames1, elem_of_cons. tauto.
    + intros Huniq Hnd Hnew. apply NoDup_cons in Hnd as [Hn Hnd].
      apply Huniq'; [ | done | ].
      * apply Huniq1; [done | ]. apply Hnew. by left.
      * intros m Hm Hin. apply Hnames1 in Hin as [Hin | ->]; [ | done ].
        apply (Hnew m); [ by right | done ].
    + eapply Forall_impl; [ exact Hsrc' | ]. simpl. intros et [Het | Hsrc]; [ | by right ].
      rewrite Het1 in Het. apply elem_of_app in Het as [Het | ->%list_elem_of_singleton];
        [ by left | by right ].
Qed.

(** ** The stores the tag-writing calls leave *)

Lemma entity_present_first entity_id db :
  entity_present entity_id db ->
  exists db_entity,
    first (filter (fun e => ent_id e = entity_id) (t_entities db)) = Some db_entity
    /\ ent_id db_entity = entity_id.
Proof.
  unfold entity_present. intros (e & He & Hin)%list_elem_of_fmap.
  destruct (first _) as [db_entity|] eqn:Hq.
  - exists db_entity. split; [done | ]. by apply first_filter_Some in Hq as [_ ?].
  - apply first_filter_None in Hq. rewrite Forall_forall in Hq.
    by destruct (Hq e Hin).
Qed.

Lemma for_each_add_metadata (row_of : EntityMetadataParam -> EntityMetadataModel)
    attrs db :
  for_each attrs (fun attr => add_metadata (row_of attr)) db
  = Returns tt (with_metadata_entries (fun rows => rows ++ map row_of attrs) db).
Proof.
  revert db. induction attrs as [|attr attrs IH]; intros db; simpl.
  - unfold mret, DB_ret. f_equal. destruct db; unfold with_metadata_entries; simpl.
    by rewrite app_nil_r.
  - unfold mbind, DB_bind, add_metadata, modify. rewrite IH. f_equal.
    destruct db; unfold with_metadata_entries; simpl. by rewrite <- app_assoc.
Qed.

Lemma update_entity_tags_store entity_id tags db :
  entity_present entity_id db ->
  exists row, update_entity_tags entity_id tags db
              = Returns row (replaced_tags_store entity_id tags db).
Proof.
  intros (db_entity & Hq & Hid)%entity_present_first.
  unfold update_entity_tags. rewrite (bind_returns _ _ _ _ _ (get_entity_by_id_eq _ _)).
  rewrite Hq, Hid. unfold delete_entity_tags.
  unfold mbind at 1, DB_bind at 1, modify at 1.
  unfold mbind at 1, DB_bind at 1. rewrite for_each_link_tag.
  eexists. reflexivity.
Qed.

Lemma add_new_tags_store entity_id tags db :
  entity_present entity_id db ->
  exists row, add_new_tags entity_id tags db
              = Returns row (added_tags_store entity_id tags db).
Proof.
  intros (db_entity & Hq & Hid)%entity_present_first.
  unfold add_new_tags. rewrite (bind_returns _ _ _ _ _ (get_entity_by_id_eq _ _)).
  rewrite Hq, Hid.
  unfold mbind at 1, DB_bind at 1, get_db at 1.
  unfold mbind at 1, DB_bind at 1. rewrite for_each_link_tag.
  eexists. reflexivity.
Qed.

Lemma with_metadata_entries_app_nil db :
  with_metadata_entries (fun rows => rows ++ []) db = db.
Proof. destruct db. unfold with_metadata_entries. simpl. by rewrite app_nil_r. Qed.

Lemma create_entity_store library_id entity db :
  exists row, create_entity library_id entity db
              = Returns row (created_store library_id entity db).
Proof.
  unfold create_entity, created_store.
  unfold mbind at 1, DB_bind at 1, get_db at 1.
  unfold mbind at 1, DB_bind at 1, modify at 1.
  unfold mbind at 1, DB_bind at 1, db_commit at 1, mret at 1, DB_ret at 1.
  set (db_entity := new_entity_row library_id entity db).
  set (db1 := with_entities _ db).
  assert (Htags : (match new_tags entity with
                   | Some ((_ :: _) as tags) =>
                     for_each tags (link_tag (ent_id db_entity));; db_commit
                   | _ => mret tt
                   end) db1
                  = Returns tt (foldl (fun db name => linked_store (ent_id db_entity) name db)
                                  db1 (default [] (new_tags entity)))).
  { destruct (new_tags entity) as [[|t tags]|]; try done.
    by rewrite (bind_returns _ _ _ _ _ (for_each_link_tag _ _ _)). }
  rewrite (bind_returns _ _ _ _ _ Htags).
  set (db2 := foldl _ db1 _).
  assert (Hmeta : (match new_metadata_entries entity with
                   | Some ((_ :: _) as metadata_entries) =>
                     for_each metadata_entries (fun attr =>
                       add_metadata (created_metadata_row (ent_id db_entity) attr))
                   | _ => mret tt
                   end) db2
                  = Returns tt (with_metadata_entries
                      (fun rows => rows ++ map (created_metadata_row (ent_id db_entity))
                                               (default [] (new_metadata_entries entity)))
                      db2)).
  { destruct (new_metadata_entries entity) as [[|a attrs]|]; simpl;
      rewrite ?with_metadata_entries_app_nil; try done.
    apply (for_each_add_metadata _ (a :: attrs)). }
  rewrite (bind_returns _ _ _ _ _ Hmeta).
  eexists. reflexivity.
Qed.

Lemma update_entity_store entity_id updated_entity db :
  entity_present entity_id db ->
  exists row, update_entity entity_id updated_entity db
              = Returns row (updated_store entity_id updated_entity db).
Proof.
  intros (db_entity & Hq & Hid)%entity_present_first.
  unfold update_entity, updated_store.
  rewrite (bind_returns _ _ _ _ _ (get_entity_by_id_eq _ _)).
  rewrite Hq, Hid.
  unfold mbind at 1, DB_bind at 1, modify at 1.
  set (db1 := with_entities _ db).
  assert (Htags : (match upd_tags updated_entity with
                   | Some tags =>
                     delete_entity_tags entity_id;; db_commit;;
                     for_each tags (link_tag entity_id);; db_commit
                   | None => mret tt
                   end) db1
                  = Returns tt
                      match upd_tags updated_entity with
                      | Some tags =>
                        foldl (fun db name => linked_store entity_id name db)
                          (with_entity_tags
                             (filter (fun et => et_entity_id et <> entity_id)) db1) tags
                      | None => db1
                      end).
  { destruct (upd_tags updated_entity) as [tags|]; [ | done ].
    unfold delete_entity_tags, mbind, DB_bind, modify, db_commit, mret, DB_ret.
    by rewrite for_each_link_tag. }
  rewrite (bind_returns _ _ _ _ _ Htags).
  set (db2 := match upd_tags updated_entity with Some _ => _ | None => _ end).
  assert (Hmeta : (match upd_metadata_entries updated_entity with
                   | Some metadata_entries =>
                     modify (with_metadata_entries
                               (filter (fun em => em_entity_id em <> entity_id)));;
                     db_commit;;
                     for_each metadata_entries (fun attr =>
                       add_metadata (new_metadata_row entity_id attr))
                   | None => mret tt
                   end) db2
                  = Returns tt
                      match upd_metadata_entries updated_entity with
                      | Some metadata_entries =>
                        with_metadata_entries
                          (fun rows => filter (fun em => em_entity_id em <> entity_id) rows
                                       ++ map (new_metadata_row entity_id) metadata_entries)
                          db2
                      | None => db2
                      end).
  { destruct (upd_metadata_entries updated_entity) as [ms|]; [ | done ].
    unfold mbind, DB_bind, modify, db_commit, mret, DB_ret.
    by rewrite for_each_add_metadata. }
  rewrite (bind_returns _ _ _ _ _ Hmeta).
  eexists. reflexivity.
Qed.

(** ** Integrity and uniqueness are kept by the tag-writing calls *)

Lemma same_tag_view_wf db db' : same_tag_view db db' -> store_wf db -> store_wf db'.
Proof.
  intros (Ht & Het & He) [Hids Hnames Hfk Hfe].
  split; by rewrite ?Ht, ?Het, ?He.
Qed.

Lemma same_tag_view_unique db db' :
  same_tag_view db db' -> edges_unique db -> edges_unique db'.
Proof. intros (Ht & Het & He). unfold edges_unique. by rewrite Het. Qed.

Lemma same_tag_view_names entity_id db db' :
  same_tag_view db db' -> tag_names_of entity_id db' = tag_names_of entity_id db.
Proof.
  intros (Ht & Het & He). unfold tag_names_of, entity_tags_of. by rewrite Ht, Het.
Qed.

Lemma same_tag_view_present entity_id db db' :
  same_tag_view db db' -> entity_present entity_id db -> entity_present entity_id db'.
Proof. intros (Ht & Het & He). unfold entity_present. by rewrite He. Qed.

Lemma set_last_scan_at_view entity_id db :
  same_tag_view db (set_last_scan_at entity_id db).
Proof.
  unfold same_tag_view, set_last_scan_at. simpl. split_and!; try done.
  rewrite map_map. apply map_ext. intros e. by destruct (decide _).
Qed.

Lemma patch_entity_view entity_id p db :
  same_tag_view db
    (with_entities (map (fun e => if decide (ent_id e = entity_id)
                                  then patch_entity p e else e)) db).
Proof.
  unfold same_tag_view. simpl. split_and!; try done.
  rewrite map_map. apply map_ext. intros e. by destruct (decide _).
Qed.

Lemma with_metadata_entries_view f db : same_tag_view db (with_metadata_entries f db).
Proof. by unfold same_tag_view. Qed.

Lemma Forall_filter_keep {A} (P Q : A -> Prop) `{!forall x, Decision (Q x)} (l : list A) :
  Forall P l -> Forall P (filter Q l).
Proof.
  rewrite !Forall_forall. intros Hall x Hx.
  apply list_elem_of_filter in Hx as [_ Hx]. by apply Hall.
Qed.

(** Dropping the edges of an entity. *)
Lemma delete_edges_spec entity_id db :
  let db' := with_entity_tags (filter (fun et => et_entity_id et <> entity_id)) db in
  (store_wf db -> store_wf db')
  /\ (edges_unique db -> edges_unique db')
  /\ tag_names_of entity_id db' = []
  /\ (entity_present entity_id db -> entity_present entity_id db')
  /\ Forall (fun et => et ∈ t_entity_tags db) (t_entity_tags db').
Proof.
  cbv zeta. split_and!.
  - intros [Hids Hnames Hfk Hfe]. split; simpl; try done.
    + by apply Forall_filter_keep.
    + by apply Forall_filter_keep.
  - unfold edges_unique. simpl. intros Hnd.
    eapply sublist_NoDup; [ exact Hnd | ].
    apply fmap_sublist, sublist_filter.
  - destruct (tag_names_of entity_id _) as [|m l] eqn:Hl; [done | ].
    assert (m ∈ tag_names_of entity_id
                  (with_entity_tags
                     (filter (fun et => et_entity_id et <> entity_id)) db)) as Hm
      by (rewrite Hl; left).
    apply elem_of_tag_names_of in Hm as (t & et & _ & Het & He & _).
    simpl in Het. by apply list_elem_of_filter in Het as [? _].
  - done.
  - simpl. apply Forall_forall. intros et Het.
    by apply list_elem_of_filter in Het as [_ ?].
Qed.

Lemma replaced_tags_store_ok entity_id tags db :
  store_wf db -> entity_present entity_id db ->
  store_wf (replaced_tags_store entity_id tags db)
  /\ (edges_unique db -> NoDup tags -> edges_unique (replaced_tags_store entity_id tags db))
  /\ Forall (fun et => et ∈ t_entity_tags db \/ et_source et = PLUGIN_GENERATED)
            (t_entity_tags (replaced_tags_store entity_id tags db))
  /\ (forall m, m ∈ tag_names_of entity_id (replaced_tags_store entity_id tags db)
                <-> m ∈ tags).
Proof.
  intros Hwf Hpres. unfold replaced_tags_store.
  destruct (delete_edges_spec entity_id db) as (Hwf0 & Huniq0 & Hnames0 & Hpres0 & Hsub0).
  set (db0 := with_entity_tags _ db) in *.
  pose proof (linked_fold_spec entity_id tags db0 (Hwf0 Hwf) (Hpres0 Hpres)) as Hfold.
  cbv zeta in Hfold. destruct Hfold as (Hwf1 & _ & _ & _ & Hnames1 & Huniq1 & Hsrc1).
  set (db1 := foldl _ db0 tags) in *.
  pose proof (set_last_scan_at_view entity_id db1) as Hview.
  split_and!.
  - by apply (same_tag_view_wf db1).
  - intros Huniq Hnd. apply (same_tag_view_unique db1); [done | ].
    apply Huniq1; [ by apply Huniq0 | done | ].
    intros n _. rewrite Hnames0. apply not_elem_of_nil.
  - destruct Hview as (_ & -> & _).
    eapply Forall_impl; [ exact Hsrc1 | ]. simpl. intros et [Het | ?]; [ | by right ].
    left. rewrite Forall_forall in Hsub0. by apply Hsub0.
  - intros m. rewrite (same_tag_view_names _ db1) by done.
    rewrite Hnames1, Hnames0. split; [ | by right ].
    intros [Hm | ?]; [ | done ]. by apply elem_of_nil in Hm.
Qed.

Lemma added_tags_store_ok entity_id tags db :
  store_wf db -> entity_present entity_id db ->
  store_wf (added_tags_store entity_id tags db)
  /\ (edges_unique db -> edges_unique (added_tags_store entity_id tags db))
  /\ Forall (fun et => et ∈ t_entity_tags db \/ et_source et = PLUGIN_GENERATED)
            (t_entity_tags (added_tags_store entity_id tags db))
  /\ (forall m, m ∈ tag_names_of entity_id (added_tags_store entity_id tags db)
                <-> m ∈ tag_names_of entity_id db \/ m ∈ tags).
Proof.
  intros Hwf Hpres. unfold added_tags_store.
  set (new_tags := elements _).
  pose proof (linked_fold_spec entity_id new_tags db Hwf Hpres) as Hfold.
  cbv zeta in Hfold. destruct Hfold as (Hwf1 & _ & _ & _ & Hnames1 & Huniq1 & Hsrc1).
  set (db1 := foldl _ db new_tags) in *.
  pose proof (set_last_scan_at_view entity_id db1) as Hview.
  assert (Hnew : forall n, n ∈ new_tags <-> n ∈ tags /\ n ∉ tag_names_of entity_id db).
  { intros n. unfold new_tags.
    rewrite elem_of_elements, elem_of_difference, !elem_of_list_to_set. done. }
  split_and!.
  - by apply (same_tag_view_wf db1).
  - intros Huniq. apply (same_tag_view_unique db1); [done | ].
    apply Huniq1; [ done | apply NoDup_elements | ].
    intros n Hn. by apply Hnew in Hn as [_ ?].
  - destruct Hview as (_ & -> & _). done.
  - intros m. rewrite (same_tag_view_names _ db1) by done.
    rewrite Hnames1, Hnew.
    destruct (decide (m ∈ tag_names_of entity_id db)); tauto.
Qed.

Lemma created_store_ok library_id entity db :
  store_wf db ->
  store_wf (created_store library_id entity db)
  /\ (edges_unique db -> NoDup (default [] (new_tags entity)) ->
      edges_unique (created_store library_id entity db))
  /\ Forall (fun et => et ∈ t_entity_tags db \/ et_source et = PLUGIN_GENERATED)
            (t_entity_tags (created_store library_id entity db)).
Proof.
  intros Hwf. unfold created_store. cbv zeta.
  set (db_entity := new_entity_row library_id entity db).
  set (db1 := with_entities _ db).
  assert (Hwf1 : store_wf db1).
  { destruct Hwf as [Hids Hnames Hfk Hfe]. split; simpl; try done.
    eapply Forall_impl; [ exact Hfe | ]. simpl. intros et Het.
    rewrite map_app. apply elem_of_app. by left. }
  assert (Hpres1 : entity_present (ent_id db_entity) db1).
  { unfold entity_present. simpl. rewrite map_app. apply elem_of_app. right. by left. }
  assert (Hnames0 : forall n, n ∉ tag_names_of (ent_id db_entity) db1).
  { intros n (t & et & _ & Het & He & _)%elem_of_tag_names_of. simpl in Het.
    destruct Hwf as [_ _ _ Hfe]. rewrite Forall_forall in Hfe.
    specialize (Hfe et Het). rewrite He in Hfe. simpl in Hfe.
    by apply next_id_not_in in Hfe. }
  pose proof (linked_fold_spec (ent_id db_entity) (default [] (new_tags entity))
                db1 Hwf1 Hpres1) as Hfold.
  cbv zeta in Hfold. destruct Hfold as (Hwf2 & _ & _ & _ & _ & Huniq2 & Hsrc2).
  set (db2 := foldl _ db1 _) in *.
  pose proof (with_metadata_entries_view
                (fun rows => rows ++ map (created_metadata_row (ent_id db_entity))
                                         (default [] (new_metadata_entries entity)))
                db2) as Hview.
  split_and!.
  - by apply (same_tag_view_wf db2).
  - intros Huniq Hnd. apply (same_tag_view_unique db2); [done | ].
    apply Huniq2; [done | done | ]. intros n _. apply Hnames0.
  - done.
Qed.

Lemma updated_store_ok entity_id updated_entity db :
  store_wf db -> entity_present entity_id db ->
  store_wf (updated_store entity_id updated_entity db)
  /\ (edges_unique db -> NoDup (default [] (upd_tags updated_entity)) ->
      edges_unique (updated_store entity_id updated_entity db))
  /\ Forall (fun et => et ∈ t_entity_tags db \/ et_source et = PLUGIN_GENERATED)
            (t_entity_tags (updated_store entity_id updated_entity db)).
Proof.
  intros Hwf Hpres. unfold updated_store. cbv zeta.
  pose proof (patch_entity_view entity_id updated_entity db) as Hview1.
  set (db1 := with_entities _ db) in *.
  pose proof (same_tag_view_wf _ _ Hview1 Hwf) as Hwf1.
  pose proof (same_tag_view_present entity_id _ _ Hview1 Hpres) as Hpres1.
  set (db2 := match upd_tags updated_entity with Some _ => _ | None => db1 end).
  assert (H2 : store_wf db2
               /\ (edges_unique db -> NoDup (default [] (upd_tags updated_entity)) ->
                   edges_unique db2)
               /\ Forall (fun et => et ∈ t_entity_tags db
                                    \/ et_source et = PLUGIN_GENERATED)
                         (t_entity_tags db2)).
  { unfold db2. destruct (upd_tags updated_entity) as [tags|]; simpl.
    - destruct (delete_edges_spec entity_id db1) as (Hwf0 & Huniq0 & Hn0 & Hpres0 & Hsub0).
      set (db0 := with_entity_tags _ db1) in *.
      pose proof (linked_fold_spec entity_id tags db0 (Hwf0 Hwf1) (Hpres0 Hpres1)) as Hfold.
      cbv zeta in Hfold. destruct Hfold as (Hwf' & _ & _ & _ & _ & Huniq' & Hsrc').
      split_and!; [done | | ].
      + intros Huniq Hnd. apply Huniq'; [ | done | ].
        * apply Huniq0. by apply (same_tag_view_unique db).
        * intros n _. rewrite Hn0. apply not_elem_of_nil.
      + eapply Forall_impl; [ exact Hsrc' | ]. simpl. intros et [Het | ?]; [ | by right ].
        left. rewrite Forall_forall in Hsub0. by apply Hsub0.
    - split_and!; [done | | ].
      + intros Huniq _. by apply (same_tag_view_unique db).
      + apply Forall_forall. intros et Het. by left. }
  destruct H2 as (Hwf2 & Huniq2 & Hsrc2).
  destruct (upd_metadata_entries updated_entity) as [ms|]; [ | done ].
  set (f := fun rows => filter _ rows ++ _).
  pose proof (with_metadata_entries_view f db2) as Hview.
  split_and!.
  - by apply (same_tag_view_wf db2).
  - intros Huniq Hnd. apply (same_tag_view_unique db2); [done | by apply Huniq2].
  - done.
Qed.

(** ** Metadata entries *)

Lemma for_each_upsert entity_id d updated_metadata db :
  for_each updated_metadata (fun metadata =>
    match d !! key metadata with
    | Some existing_metadata =>
      modify (with_metadata_entries
                (alter (overwrite_metadata metadata) existing_metadata))
    | None => add_metadata (new_metadata_row entity_id metadata)
    end) db
  = Returns tt (with_metadata_entries
                  (fun rows => foldl (upsert_row entity_id d) rows updated_metadata) db).
Proof.
  revert db. induction updated_metadata as [|m ms IH]; intros db; simpl.
  - by destruct db.
  - unfold mbind, DB_bind.
    destruct (d !! key m) as [i|] eqn:Hd; unfold add_metadata, modify; rewrite IH;
      f_equal; destruct db; unfold with_metadata_entries, upsert_row; simpl;
      by rewrite Hd.
Qed.

Lemma update_entity_metadata_entries_store entity_id updated_metadata db :
  entity_present entity_id db ->
  exists row, update_entity_metadata_entries entity_id updated_metadata db
              = Returns row (upserted_store entity_id updated_metadata db).
Proof.
  intros (db_entity & Hq & Hid)%entity_present_first.
  unfold update_entity_metadata_entries, upserted_store.
  rewrite (bind_returns _ _ _ _ _ (get_entity_by_id_eq _ _)).
  rewrite Hq. simpl. rewrite Hid.
  unfold mbind at 1, DB_bind at 1, getattr_id, mret at 1, DB_ret at 1.
  unfold mbind at 1, DB_bind at 1, get_db at 1.
  unfold mbind at 1, DB_bind at 1. rewrite for_each_upsert.
  eexists. reflexivity.
Qed.















Lemma upserted_store_view entity_id ms db :
  same_tag_view db (upserted_store entity_id ms db).
Proof.
  unfold upserted_store.
  destruct (set_last_scan_at_view entity_id
              (with_metadata_entries
                 (fun rows => foldl (upsert_row entity_id
                                       (existing_metadata_dict_of entity_id rows))
                                    rows ms) db)) as (Ht & Het & He).
  split_and!; by rewrite ?Ht, ?Het, ?He.
Qed.



(** Within one call the dictionary is not refreshed: a key that is not yet
    stored and is listed twice is inserted twice. *)
Lemma metadata_key_listed_twice_in_one_call :
  exists row db',
    update_entity_metadata_entries 1
      [ocr_text "first" (Some "ocr"); ocr_text "second" None] sample_store
    = Returns row db'
    /\ map em_value (metadata_for 1 "ocr_result" (t_metadata_entries db'))
       = ["first"; "second"]%string.
Proof. eexists _, _. split; [ vm_compute; reflexivity | vm_compute; reflexivity ]. Qed.

Lemma update_metadata_of_missing_entity_witness :
  (exists msg, update_entity_metadata_entries 7 [ocr_text "text" None] sample_store
               = Raises (AttributeError msg) sample_store)
  /\ add_new_tags 7 ["a"%string] sample_store = Raises (not_found 7) sample_store
  /\ update_entity_tags 7 ["a"%string] sample_store = Raises (not_found 7) sample_store.
Proof.
  apply (update_metadata_of_missing_entity 7 [ocr_text "text" None] ["a"%string]
           sample_store).
  unfold entity_absent. simpl. repeat constructor; vm_compute; discriminate.
Defined.

(** ** Provenance of the edges *)

Lemma edges_kept_refl db db' :
  t_entity_tags db' = t_entity_tags db -> edges_kept_and_created db db'.
Proof. intros Heq. exists (t_entity_tags db), []. by rewrite app_nil_r. Qed.

Lemma linked_fold_edges entity_id names db :
  exists created,
    t_entity_tags (foldl (fun db name => linked_store entity_id name db) db names)
    = t_entity_tags db ++ created
    /\ Forall (fun et => et_source et = PLUGIN_GENERATED) created.
Proof.
  revert db. induction names as [|n names IH]; intros db; simpl.
  - exists []. by rewrite app_nil_r.
  - destruct (IH (linked_store entity_id n db)) as (created & Heq & Hsrc).
    destruct (linked_store_frame entity_id n db) as (_ & _ & _ & tag & Het).
    rewrite Heq, Het, <- app_assoc. eexists. split; [done | ].
    apply Forall_app. split; [ | done ]. by apply Forall_singleton.
Qed.

Lemma replaced_tags_store_edges entity_id tags db :
  edges_kept_and_created db (replaced_tags_store entity_id tags db).
Proof.
  unfold replaced_tags_store.
  destruct (linked_fold_edges entity_id tags
              (with_entity_tags (filter (fun et => et_entity_id et <> entity_id)) db))
    as (created & Heq & Hsrc).
  eexists _, created. split_and!; [ exact Heq | apply sublist_filter | done ].
Qed.

Lemma added_tags_store_edges entity_id tags db :
  edges_kept_and_created db (added_tags_store entity_id tags db).
Proof.
  unfold added_tags_store.
  destruct (linked_fold_edges entity_id
              (elements ((list_to_set tags : gset string)
                         ∖ list_to_set (tag_names_of entity_id db))) db)
    as (created & Heq & Hsrc).
  eexists _, created. split_and!; [ exact Heq | done | done ].
Qed.

Lemma created_store_edges library_id entity db :
  edges_kept_and_created db (created_store library_id entity db).
Proof.
  unfold created_store. cbv zeta.
  destruct (linked_fold_edges (ent_id (new_entity_row library_id entity db))
              (default [] (new_tags entity))
              (with_entities (fun rows => rows ++ [new_entity_row library_id entity db]) db))
    as (created & Heq & Hsrc).
  eexists _, created. split_and!; [ exact Heq | done | done ].
Qed.

Lemma updated_store_edges entity_id updated_entity db :
  edges_kept_and_created db (updated_store entity_id updated_entity db).
Proof.
  unfold updated_store. cbv zeta.
  set (db1 := with_entities _ db).
  set (db2 := match upd_tags updated_entity with Some _ => _ | None => db1 end).
  assert (H2 : edges_kept_and_created db db2).
  { unfold db2. destruct (upd_tags updated_entity) as [tags|].
    - destruct (linked_fold_edges entity_id tags
                  (with_entity_tags (filter (fun et => et_entity_id et <> entity_id)) db1))
        as (created & Heq & Hsrc).
      eexists _, created. split_and!; [ exact Heq | apply sublist_filter | done ].
    - by apply edges_kept_refl. }
  by destruct (upd_metadata_entries updated_entity).
Qed.

(** ** The store after a call *)

Lemma not_present_absent entity_id db :
  ~ entity_present entity_id db -> entity_absent entity_id db.
Proof.
  intros Hnot. apply Forall_forall. intros e Hin Hid. apply Hnot.
  unfold entity_present. rewrite <- Hid. apply list_elem_of_fmap. eauto.
Qed.

Lemma run_call_store_after c db : run_call c db = store_after c db.
Proof.
  destruct c as [l e | e p | e tags | e tags | e ms | e p]; simpl.
  - by destruct (create_entity_store l e db) as [row ->].
  - destruct (decide (entity_present e db)) as [Hp | Ha%not_present_absent].
    + by destruct (update_entity_store e p db Hp) as [row ->].
    + by rewrite update_entity_absent.
  - destruct (decide (entity_present e db)) as [Hp | Ha%not_present_absent].
    + by destruct (update_entity_tags_store e tags db Hp) as [row ->].
    + by rewrite update_entity_tags_absent.
  - destruct (decide (entity_present e db)) as [Hp | Ha%not_present_absent].
    + by destruct (add_new_tags_store e tags db Hp) as [row ->].
    + by rewrite add_new_tags_absent.
  - destruct (decide (entity_present e db)) as [Hp | Ha%not_present_absent].
    + by destruct (update_entity_metadata_entries_store e ms db Hp) as [row ->].
    + by rewrite update_entity_metadata_entries_absent.
  - done.
Qed.

Lemma merge_status_view entity_id plugin_id db :
  same_tag_view db (merge_status entity_id plugin_id db).
Proof. unfold merge_status. by destruct (decide _). Qed.

Lemma store_after_edges c db : edges_kept_and_created db (store_after c db).
Proof.
  destruct c as [l e | e p | e tags | e tags | e ms | e p]; simpl.
  - apply created_store_edges.
  - destruct (decide _); [ apply updated_store_edges | by apply edges_kept_refl ].
  - destruct (decide _); [ apply replaced_tags_store_edges | by apply edges_kept_refl ].
  - destruct (decide _); [ apply added_tags_store_edges | by apply edges_kept_refl ].
  - destruct (decide _); by apply edges_kept_refl.
  - apply edges_kept_refl. by destruct (merge_status_view e p db) as (_ & ? & _).
Qed.

Lemma run_calls_snoc cs c db :
  run_calls (cs ++ [c]) db = run_call c (run_calls cs db).
Proof. unfold run_calls. by rewrite foldl_snoc. Qed.

(** C9: the edges a call leaves are old edges followed by the edges the call
    created, and every created edge carries [source = PLUGIN_GENERATED]; so a
    store built from the empty store by any sequence of calls holds
    plugin-generated edges only. *)
Theorem created_edges_are_plugin_generated :
  (forall c db, edges_kept_and_created db (run_call c db))
  /\ (forall cs now,
        Forall (fun et => et_source et = PLUGIN_GENERATED)
               (t_entity_tags (run_calls cs (empty_store now)))).
Proof.
  assert (Hstep : forall c db, edges_kept_and_created db (run_call c db)).
  { intros c db. rewrite run_call_store_after. apply store_after_edges. }
  split; [done | ].
  intros cs now. induction cs as [|c cs IH] using rev_ind; [ by constructor | ].
  rewrite run_calls_snoc.
  destruct (Hstep c (run_calls cs (empty_store now))) as (kept & created & -> & Hsub & Hsrc).
  apply Forall_app. split; [ | done ].
  rewrite Forall_forall in IH. apply Forall_forall. intros et Het.
  apply IH. by eapply elem_of_sublist.
Qed.

(** ** One edge per (entity, tag) pair *)

Lemma store_after_ok c db :
  store_wf db ->
  store_wf (store_after c db)
  /\ (edges_unique db -> distinct_tag_names c -> edges_unique (store_after c db)).
Proof.
  intros Hwf.
  destruct c as [l e | e p | e tags | e tags | e ms | e p]; simpl.
  - by destruct (created_store_ok l e db Hwf) as (? & ? & _).
  - destruct (decide _) as [Hp | _]; [ | done ].
    by destruct (updated_store_ok e p db Hwf Hp) as (? & ? & _).
  - destruct (decide _) as [Hp | _]; [ | done ].
    by destruct (replaced_tags_store_ok e tags db Hwf Hp) as (? & ? & _).
  - destruct (decide _) as [Hp | _]; [ | done ].
    destruct (added_tags_store_ok e tags db Hwf Hp) as (? & Hu & _). split; [done | ].
    intros ? _. by apply Hu.
  - destruct (decide _) as [Hp | _]; [ | done ].
    pose proof (upserted_store_view e ms db) as Hv. split.
    + by apply (same_tag_view_wf db).
    + intros Hu _. by apply (same_tag_view_unique db).
  - pose proof (merge_status_view e p db) as Hv. split.
    + by apply (same_tag_view_wf db).
    + intros Hu _. by apply (same_tag_view_unique db).
Qed.

Lemma NoDup_all_equal_length {A} (l : list A) :
  NoDup l -> (forall x y, x ∈ l -> y ∈ l -> x = y) -> (length l <= 1)%nat.
Proof.
  destruct l as [|a [|b l]]; simpl; intros Hnd Heq; [lia | lia | ].
  exfalso. apply NoDup_cons in Hnd as [Ha _]. apply Ha.
  rewrite (Heq a b); [ by left | by left | right; by left ].
Qed.

Lemma edges_of_tag_name_at_most_one db entity_id name :
  store_wf db -> edges_unique db ->
  (length (edges_of_tag_name db entity_id name) <= 1)%nat.
Proof.
  intros [Hids Hnames _ _] Huniq. unfold edges_of_tag_name.
  set (l := filter _ (t_entity_tags db)).
  rewrite <- (length_map edge_key). apply NoDup_all_equal_length.
  - eapply sublist_NoDup; [ exact Huniq | ]. apply fmap_sublist, sublist_filter.
  - assert (Hkey : forall k, k ∈ map edge_key l ->
                     exists t, t ∈ t_tags db /\ tag_name t = name
                               /\ k = (entity_id, tag_id t)).
    { intros k (et & -> & Het)%list_elem_of_fmap.
      apply list_elem_of_filter in Het as [[He Hid] _].
      apply list_elem_of_fmap in Hid as (t & Hid & Ht).
      apply list_elem_of_filter in Ht as [Hn Ht].
      exists t. unfold edge_key. by rewrite He, Hid. }
    intros x y (t & Ht & Hn & ->)%Hkey (t' & Ht' & Hn' & ->)%Hkey.
    f_equal. f_equal. apply (NoDup_fmap_eq tag_name (t_tags db)); congruence.
Qed.

Lemma edges_of_tag_name_at_least_one db entity_id name :
  name ∈ tag_names_of entity_id db ->
  (1 <= length (edges_of_tag_name db entity_id name))%nat.
Proof.
  intros (t & et & Ht & Het & He & Hid & Hn)%elem_of_tag_names_of.
  assert (et ∈ edges_of_tag_name db entity_id name) as Hin.
  { apply list_elem_of_filter. split; [ | done ]. split; [done | ].
    rewrite Hid. apply list_elem_of_fmap. exists t. split; [done | ].
    by apply list_elem_of_filter. }
  destruct (edges_of_tag_name db entity_id name); [ by apply elem_of_nil in Hin | ].
  simpl. lia.
Qed.

(** C4, as amended: on a store whose tag tables are intact and that holds at
    most one edge per (entity, tag) pair, every call keeps both properties,
    provided the tag list given to a creating or replacing call names no tag
    twice; the additive path needs no such proviso, and after adding a name
    through [add_new_tags], adding again leaves exactly one edge for it. *)
Theorem tag_writes_keep_one_edge_per_pair db :
  store_wf db -> edges_unique db ->
  (forall c, distinct_tag_names c ->
             store_wf (run_call c db) /\ edges_unique (run_call c db))
  /\ (forall entity_id tags1 tags2 name,
        entity_present entity_id db -> name ∈ tags1 ->
        length (edges_of_tag_name
                  (run_calls [AddNewTags entity_id tags1; AddNewTags entity_id tags2] db)
                  entity_id name) = 1%nat).
Proof.
  intros Hwf Huniq. split.
  - intros c Hc. rewrite run_call_store_after.
    destruct (store_after_ok c db Hwf) as [? Hu]. split; [done | by apply Hu].
  - intros e tags1 tags2 n Hp Hn.
    change (run_calls [AddNewTags e tags1; AddNewTags e tags2] db)
      with (run_call (AddNewTags e tags2) (run_call (AddNewTags e tags1) db)).
    rewrite !run_call_store_after. simpl.
    destruct (decide (entity_present e db)) as [_ | ?]; [ | done ].
    destruct (added_tags_store_ok e tags1 db Hwf Hp) as (Hwf1 & Hu1 & _ & Hn1).
    set (db1 := added_tags_store e tags1 db) in *.
    assert (Hp1 : entity_present e db1).
    { unfold db1, added_tags_store.
      eapply same_tag_view_present; [ apply set_last_scan_at_view | ].
      pose proof (linked_fold_spec e
                    (elements ((list_to_set tags1 : gset string)
                               ∖ list_to_set (tag_names_of e db))) db Hwf Hp) as Hf.
      cbv zeta in Hf. destruct Hf as (_ & He & _). unfold entity_present. by rewrite He. }
    destruct (decide (entity_present e db1)) as [_ | ?]; [ | done ].
    destruct (added_tags_store_ok e tags2 db1 Hwf1 Hp1) as (Hwf2 & Hu2 & _ & Hn2).
    apply Nat.le_antisymm.
    + apply edges_of_tag_name_at_most_one; [done | ]. apply Hu2. by apply Hu1.
    + apply edges_of_tag_name_at_least_one. apply Hn2. left. apply Hn1. by right.
Qed.

Lemma tag_writes_keep_one_edge_per_pair_witness :
  (store_wf (run_call (UpdateEntityTags 1 ["a"; "b"]%string) sample_store)
   /\ edges_unique (run_call (UpdateEntityTags 1 ["a"; "b"]%string) sample_store))
  /\ length (edges_of_tag_name
               (run_calls [AddNewTags 1 ["a"; "a"]%string; AddNewTags 1 ["a"]%string]
                          sample_store)
               1 "a") = 1%nat.
Proof.
  destruct (tag_writes_keep_one_edge_per_pair sample_store) as [Hcall Htwice].
  - split; simpl; constructor.
  - unfold edges_unique. simpl. constructor.
  - split.
    + apply Hcall. simpl. apply NoDup_cons. split.
      * intros Hin%list_elem_of_singleton. discriminate Hin.
      * apply NoDup_singleton.
    + apply Htwice.
      * unfold entity_present. simpl. left.
      * left.
Defined.

(** C4 as stated fails: replacing the tags of an entity by the list
    [["a"; "a"]] stores two edges for the same (entity, tag) pair. *)
Lemma replacing_with_a_repeated_name_duplicates_the_edge :
  ~ (forall cs, edges_unique (run_calls cs (empty_store 0))).
Proof.
  intros H.
  specialize (H [CreateEntity 1 (new_screenshot 10 None);
                 UpdateEntityTags 1 ["a"; "a"]%string]).
  unfold edges_unique in H. vm_compute in H.
  apply NoDup_cons in H as [Hin _]. apply Hin. left.
Qed.

(** The same through the initial tags of [create_entity]. *)
Lemma creating_with_a_repeated_name_duplicates_the_edge :
  map edge_key
      (t_entity_tags
         (run_call (CreateEntity 1 (new_screenshot 10 (Some ["a"; "a"]%string)))
                   (empty_store 0)))
  = [(1, 1); (1, 1)].
Proof. vm_compute. reflexivity. Qed.

(** The additive path on the same input. *)
Lemma adding_a_repeated_name_links_it_once :
  map edge_key
      (t_entity_tags
         (run_calls [CreateEntity 1 (new_screenshot 10 None);
                     AddNewTags 1 ["a"; "a"]%string; AddNewTags 1 ["a"; "b"]%string]
                    (empty_store 0)))
  = [(1, 1); (1, 2)].
Proof. vm_compute. reflexivity. Qed.

(** Stores built from the empty store by calls whose creating and replacing
    tag lists are free of repetitions hold at most one edge per pair. *)
Lemma reachable_stores_have_unique_edges cs now :
  Forall distinct_tag_names cs ->
  store_wf (run_calls cs (empty_store now))
  /\ edges_unique (run_calls cs (empty_store now)).
Proof.
  induction cs as [|c cs IH] using rev_ind; intros Hall.
  - split; [ split; simpl; constructor | unfold edges_unique; simpl; constructor ].
  - apply Forall_app in Hall as [Hcs Hc]. rewrite Forall_singleton in Hc.
    destruct (IH Hcs) as [Hwf Hu]. rewrite run_calls_snoc, run_call_store_after.
    destruct (store_after_ok c _ Hwf) as [? Hu']. split; [done | by apply Hu'].
Qed.

(** ** Plugin status *)

Lemma has_status_elem db entity_id p :
  has_status db entity_id p
  <-> p ∈ map eps_plugin_id
            (filter (fun s => eps_entity_id s = entity_id) (t_entity_plugin_status db)).
Proof.
  unfold has_status, status_rows. rewrite list_elem_of_fmap. split.
  - intros Hne. destruct (filter _ _) as [|s l] eqn:Hf; [done | ].
    assert (s ∈ filter (fun s => eps_entity_id s = entity_id /\ eps_plugin_id s = p)
                  (t_entity_plugin_status db)) as Hin by (rewrite Hf; left).
    apply list_elem_of_filter in Hin as [[He Hp] Hin].
    exists s. split; [done | ]. by apply list_elem_of_filter.
  - intros (s & -> & Hin). apply list_elem_of_filter in Hin as [He Hin].
    intros Hnil.
    assert (s ∈ filter (fun s' => eps_entity_id s' = entity_id
                                  /\ eps_plugin_id s' = eps_plugin_id s)
                  (t_entity_plugin_status db)) as Hs
      by by apply list_elem_of_filter.
    rewrite Hnil in Hs. by apply elem_of_nil in Hs.
Qed.

Lemma elem_of_get_pending_plugins entity_id library_id db p :
  p ∈ get_pending_plugins entity_id library_id db
  <-> plugin_bound db library_id p /\ ~ has_status db entity_id p.
Proof.
  unfold get_pending_plugins.
  rewrite elem_of_elements, elem_of_difference, !elem_of_list_to_set.
  rewrite <- has_status_elem. apply and_iff_compat_r.
  rewrite list_elem_of_fmap. unfold plugin_bound. split.
  - intros (plugin & -> & Hin).
    apply list_elem_of_bind in Hin as (plugin' & Hin & Hplugin).
    apply list_elem_of_bind in Hin as (lp & Hin & Hlp).
    apply list_elem_of_filter in Hlp as [Hid Hlp].
    destruct (decide (lp_library_id lp = library_id)) as [Hlib | ?];
      [ | by apply elem_of_nil in Hin ].
    apply list_elem_of_singleton in Hin as ->. eauto 10.
  - intros (plugin & lp & Hplugin & Hp & Hlp & Hid & Hlib). exists plugin.
    split; [done | ]. apply list_elem_of_bind. exists plugin. split; [ | done ].
    apply list_elem_of_bind. exists lp. split.
    + rewrite decide_True by done. by left.
    + apply list_elem_of_filter. split; [congruence | done].
Qed.

(** C5: [get_pending_plugins] lists, without repetition, exactly the plugins
    that are bound to the library and have no completion status row for the
    entity: the set difference of the two, in no particular order. *)
Theorem pending_plugins_are_the_set_difference entity_id library_id db :
  NoDup (get_pending_plugins entity_id library_id db)
  /\ forall p, p ∈ get_pending_plugins entity_id library_id db
               <-> plugin_bound db library_id p /\ ~ has_status db entity_id p.
Proof.
  split; [ apply NoDup_elements | ]. intros p. apply elem_of_get_pending_plugins.
Qed.

(** The example of the specification: library bound to plugins 1, 2, 3 and
    a status row for plugin 1 gives the set of plugins 2 and 3. *)
Lemma pending_plugins_example :
  get_pending_plugins 1 1 sample_store ≡ₚ [2; 3].
Proof.
  assert (get_pending_plugins 1 1 sample_store = [3; 2]) as -> by (vm_compute; reflexivity).
  apply Permutation_swap.
Qed.

Lemma record_plugin_processed_eq entity_id p db :
  record_plugin_processed entity_id p db = Returns tt (merge_status entity_id p db).
Proof. reflexivity. Qed.

Lemma status_rows_Exists db entity_id p :
  Exists (fun r => eps_entity_id r = entity_id /\ eps_plugin_id r = p)
         (t_entity_plugin_status db)
  <-> status_rows db entity_id p <> [].
Proof.
  unfold status_rows. rewrite Exists_exists. split.
  - intros (s & Hin & Hs) Hnil.
    assert (s ∈ filter (fun s => eps_entity_id s = entity_id /\ eps_plugin_id s = p)
                  (t_entity_plugin_status db)) as Hf by by apply list_elem_of_filter.
    rewrite Hnil in Hf. by apply elem_of_nil in Hf.
  - intros Hne. destruct (filter _ _) as [|s l] eqn:Hf; [done | ].
    assert (s ∈ filter (fun s => eps_entity_id s = entity_id /\ eps_plugin_id s = p)
                  (t_entity_plugin_status db)) as Hin by (rewrite Hf; left).
    apply list_elem_of_filter in Hin as [? ?]. eauto.
Qed.

(** [merge]: a pair with a row keeps its row; a pair without one gets one. *)
Lemma merge_status_rows entity_id p db :
  status_rows (merge_status entity_id p db) entity_id p
  = match status_rows db entity_id p with
    | [] => [{| eps_entity_id := entity_id; eps_plugin_id := p;
                eps_processed_at := db_now db |}]
    | rows => rows
    end.
Proof.
  unfold merge_status. destruct (decide _) as [Hex | Hno].
  - apply status_rows_Exists in Hex. by destruct (status_rows db entity_id p).
  - assert (status_rows db entity_id p = []) as Hnil.
    { destruct (status_rows db entity_id p) eqn:Hs; [done | ].
      exfalso. apply Hno. apply status_rows_Exists. by rewrite Hs. }
    rewrite Hnil. unfold status_rows in *. simpl.
    by rewrite filter_app, Hnil, filter_cons, decide_True.
Qed.

Lemma merge_status_idempotent entity_id p db :
  merge_status entity_id p (merge_status entity_id p db) = merge_status entity_id p db.
Proof.
  unfold merge_status at 1. rewrite decide_True; [done | ].
  apply status_rows_Exists. rewrite merge_status_rows.
  by destruct (status_rows db entity_id p).
Qed.

(** C6: on a store with at most one status row for the pair (the primary
    key), recording the same completion twice leaves exactly one status row
    for it; the second call changes nothing; and the plugin is no longer
    pending for the entity, whatever the library. *)
Theorem record_plugin_processed_twice entity_id p db :
  (length (status_rows db entity_id p) <= 1)%nat ->
  exists db1 db2,
    record_plugin_processed entity_id p db = Returns tt db1
    /\ record_plugin_processed entity_id p db1 = Returns tt db2
    /\ db2 = db1
    /\ length (status_rows db2 entity_id p) = 1%nat
    /\ forall library_id, p ∉ get_pending_plugins entity_id library_id db2.
Proof.
  intros Hlen. exists (merge_status entity_id p db), (merge_status entity_id p db).
  rewrite !record_plugin_processed_eq, merge_status_idempotent.
  assert (Hone : length (status_rows (merge_status entity_id p db) entity_id p) = 1%nat).
  { rewrite merge_status_rows.
    destruct (status_rows db entity_id p) as [|s [|s' l]]; simpl in *; lia. }
  split_and!; try done.
  intros library_id Hin.
  apply elem_of_get_pending_plugins in Hin as [_ Hno]. apply Hno. unfold has_status.
  intros Hnil. by rewrite Hnil in Hone.
Qed.

Lemma record_plugin_processed_twice_witness :
  exists db1 db2,
    record_plugin_processed 2 1 sample_store = Returns tt db1
    /\ record_plugin_processed 2 1 db1 = Returns tt db2
    /\ db2 = db1
    /\ length (status_rows db2 2 1) = 1%nat
    /\ forall library_id, 1 ∉ get_pending_plugins 2 library_id db2.
Proof.
  apply (record_plugin_processed_twice 2 1 sample_store).
  vm_compute. lia.
Defined.

(** Before the call plugin 1 was pending for entity 2. *)
Lemma pending_before_recording : 1 ∈ get_pending_plugins 2 1 sample_store.
Proof. vm_compute. right. right. left. Qed.

(** ** Ordered reads *)

#[local] Instance created_desc_trans : Transitive created_desc.
Proof. unfold created_desc. intros a b c ? ?. lia. Qed.
#[local] Instance created_desc_total : Total created_desc.
Proof. unfold created_desc. intros a b. lia. Qed.
#[local] Instance created_asc_trans : Transitive created_asc.
Proof. unfold created_asc. intros a b c ? ?. lia. Qed.
#[local] Instance created_asc_total : Total created_asc.
Proof. unfold created_asc. intros a b. lia. Qed.

(** The first [n] rows of a sorted query: members of it, as many as asked
    for or as there are, sorted, and ahead of every row left out. *)
Lemma take_sorted_spec (R : relation EntityModel) `{!forall a b, Decision (R a b)}
    `{!Transitive R} `{!Total R} (n : nat) (rows : list EntityModel) :
  let result := take n (merge_sort R rows) in
  result ⊆ rows
  /\ length result = Nat.min n (length rows)
  /\ StronglySorted R result
  /\ (forall e x, e ∈ rows -> e ∉ result -> x ∈ result -> R x e).
Proof.
  cbv zeta. pose proof (merge_sort_Permutation R rows) as Hperm.
  pose proof (StronglySorted_merge_sort R rows) as Hs.
  set (sorted := merge_sort R rows) in *.
  rewrite <- (take_drop n sorted) in Hs.
  split_and!.
  - intros e He. rewrite <- Hperm, <- (take_drop n sorted).
    apply elem_of_app. by left.
  - by rewrite length_take, Hperm.
  - by eapply StronglySorted_app_1_l.
  - intros e x He Hnot Hx.
    apply (StronglySorted_app_1_elem_of R _ _ x e Hs Hx).
    rewrite <- Hperm, <- (take_drop n sorted) in He.
    apply elem_of_app in He as [? | ?]; done.
Qed.

Lemma sql_limit_positive {A} (n : Z) (rows : list A) :
  n > 0 -> sql_limit n rows = take (Z.to_nat n) rows.
Proof. intros Hn. unfold sql_limit. rewrite decide_False; [done | lia]. Qed.

Lemma get_entity_context_eq db library_id entity_id prev next :
  get_entity_context db library_id entity_id prev next
  = match anchor db library_id entity_id with
    | None => ([], [])
    | Some target =>
      (reverse (take (Z.to_nat prev) (merge_sort created_desc (earlier db library_id target))),
       take (Z.to_nat next) (merge_sort created_asc (later db library_id target)))
    end.
Proof.
  unfold get_entity_context, anchor. destruct (first _) as [target|]; [ | done ].
  fold (earlier db library_id target). fold (later db library_id target).
  f_equal.
  - destruct (decide (prev > 0)) as [Hp | Hp].
    + by rewrite sql_limit_positive.
    + by replace (Z.to_nat prev) with 0%nat by lia.
  - destruct (decide (next > 0)) as [Hp | Hp].
    + by rewrite sql_limit_positive.
    + by replace (Z.to_nat next) with 0%nat by lia.
Qed.

(** C7: without an anchor of that id in that library [get_entity_context]
    returns two empty lists, and raises nothing; with an anchor it returns up
    to [prev] entities of the library created strictly before it and up to
    [next] created strictly after it, in both cases the nearest ones, each
    list in ascending order of creation. *)
Theorem get_entity_context_spec db library_id entity_id prev next :
  match anchor db library_id entity_id with
  | None => get_entity_context db library_id entity_id prev next = ([], [])
  | Some target =>
    context_of db library_id target prev next
      (get_entity_context db library_id entity_id prev next).1
      (get_entity_context db library_id entity_id prev next).2
  end.
Proof.
  rewrite get_entity_context_eq.
  destruct (anchor db library_id entity_id) as [target|]; [ | done ]. simpl.
  destruct (take_sorted_spec created_desc (Z.to_nat prev) (earlier db library_id target))
    as (Hsub1 & Hlen1 & Hs1 & Hnear1).
  destruct (take_sorted_spec created_asc (Z.to_nat next) (later db library_id target))
    as (Hsub2 & Hlen2 & Hs2 & Hnear2).
  split; try done.
  - intros e He. apply Hsub1. by rewrite elem_of_reverse in He.
  - by rewrite length_reverse.
  - apply Sorted_StronglySorted; [ apply _ | ].
    apply (Sorted_reverse created_desc). by apply StronglySorted_Sorted.
  - intros e b He Hnot Hb. rewrite elem_of_reverse in Hb, Hnot.
    by apply (Hnear1 e b He).
Qed.

(** The example of the specification: creation times 10, 20, 30, 40, 50,
    anchor 30, two before and one after. *)
Lemma get_entity_context_example :
  let '(previous, following) := get_entity_context sample_store 1 3 2 1 in
  map ent_file_created_at previous = [10; 20]
  /\ map ent_file_created_at following = [40].
Proof. vm_compute. done. Qed.

Lemma get_entity_context_other_library :
  get_entity_context sample_store 2 3 2 1 = ([], []).
Proof. vm_compute. reflexivity. Qed.

Lemma elem_of_sql_limit {A} (n : Z) (rows : list A) (x : A) :
  x ∈ sql_limit n rows -> x ∈ rows.
Proof.
  unfold sql_limit. destruct (decide (n < 0)); [done | ].
  intros Hx. rewrite <- (take_drop (Z.to_nat n) rows). apply elem_of_app. by left.
Qed.

(** What [list_entities] does guarantee: rows of the store, of the "image"
    group, of the given libraries when some are given, inside the window as
    the texts compare, sorted by creation time descending, and no more than
    a non-negative limit. *)
Lemma list_entities_members db limit library_ids start end_ :
  Forall (fun e =>
            e ∈ t_entities db
            /\ ent_file_type_group e = "image"%string
            /\ match library_ids with
               | Some ((_ :: _) as ids) => ent_library_id e ∈ ids
               | _ => True
               end
            /\ match start, end_ with
               | Some start, Some end_ =>
                 text_between (str (ent_file_created_at e)) (str start) (str end_) = true
               | _, _ => True
               end)
         (list_entities db limit library_ids start end_).
Proof.
  unfold list_entities. apply Forall_forall. intros e He.
  apply elem_of_sql_limit in He. rewrite merge_sort_Permutation in He.
  destruct start as [start|], end_ as [end_|], library_ids as [[|i ids]|];
    repeat (apply list_elem_of_filter in He as [? He]); done.
Qed.

Lemma list_entities_sorted db limit library_ids start end_ :
  StronglySorted created_desc (list_entities db limit library_ids start end_).
Proof.
  unfold list_entities, sql_limit.
  set (query := match start, end_ with Some _, Some _ => _ | _, _ => _ end).
  pose proof (StronglySorted_merge_sort created_desc query) as Hs.
  destruct (decide (limit < 0)); [done | ].
  rewrite <- (take_drop (Z.to_nat limit) (merge_sort _ query)) in Hs.
  by eapply StronglySorted_app_1_l.
Qed.

Lemma list_entities_limited db limit library_ids start end_ :
  0 <= limit ->
  (length (list_entities db limit library_ids start end_) <= Z.to_nat limit)%nat.
Proof.
  intros Hl. unfold list_entities, sql_limit. rewrite decide_False by lia.
  rewrite length_take. lia.
Qed.

(** ** Decimal text and the time window *)

Lemma of_uint_acc_value (d : Decimal.uint) (p : positive) :
  N.pos (Pos.of_uint_acc d p) = value_acc d (N.pos p).
Proof.
  revert p. induction d; intros p; cbn [Pos.of_uint_acc value_acc]; rewrite ?IHd;
    try reflexivity; f_equal; lia.
Qed.

Lemma of_uint_value (d : Decimal.uint) : Pos.of_uint d = value_acc d 0%N.
Proof.
  induction d; cbn [Pos.of_uint value_acc]; rewrite ?of_uint_acc_value; try done.
Qed.

Lemma compare_step (a1 a2 k1 k2 : N) :
  (k1 < 10)%N -> (k2 < 10)%N ->
  (10 * a1 + k1 ?= 10 * a2 + k2)%N
  = match (a1 ?= a2)%N with Eq => (k1 ?= k2)%N | c => c end.
Proof.
  intros H1 H2. destruct (N.compare_spec a1 a2) as [-> | Hlt | Hgt].
  - destruct (N.compare_spec k1 k2); [ subst; apply N.compare_refl | | ].
    + apply N.compare_lt_iff. lia.
    + apply N.compare_gt_iff. lia.
  - apply N.compare_lt_iff. lia.
  - apply N.compare_gt_iff. lia.
Qed.

(** Digit strings of the same length compare as the numbers they denote. *)
Lemma value_acc_compare (d1 d2 : Decimal.uint) (a1 a2 : N) :
  Decimal.nb_digits d1 = Decimal.nb_digits d2 ->
  (value_acc d1 a1 ?= value_acc d2 a2)%N
  = match (a1 ?= a2)%N with
    | Eq => String.compare (NilEmpty.string_of_uint d1) (NilEmpty.string_of_uint d2)
    | c => c
    end.
Proof.
  revert d2 a1 a2. induction d1; intros d2 a1 a2 Hlen; destruct d2; try discriminate Hlen;
    try (injection Hlen as Hlen);
    cbn [value_acc NilEmpty.string_of_uint];
    try (rewrite (IHd1 _ _ _ Hlen), compare_step by lia;
         destruct (a1 ?= a2)%N; reflexivity).
  by destruct (a1 ?= a2)%N.
Qed.

Lemma string_of_uint_length (d : Decimal.uint) :
  String.length (NilEmpty.string_of_uint d) = Decimal.nb_digits d.
Proof. induction d; simpl; by rewrite ?IHd. Qed.

(** The decimal text of a natural number, and the number it denotes. *)
Lemma str_digits (n : Z) :
  0 <= n ->
  exists d, str n = NilEmpty.string_of_uint d /\ value_acc d 0%N = Z.to_N n.
Proof.
  intros Hn. unfold str. destruct n as [|p|p]; [ | | lia ].
  - exists (Decimal.D0 Decimal.Nil). done.
  - exists (Pos.to_uint p). split.
    + simpl. pose proof (DecimalPos.Unsigned.to_uint_nonnil p) as Hnil.
      by destruct (Pos.to_uint p).
    + by rewrite <- of_uint_value, DecimalPos.Unsigned.of_to.
Qed.

Lemma str_compare (a b : Z) :
  0 <= a -> 0 <= b -> String.length (str a) = String.length (str b) ->
  String.compare (str a) (str b) = (a ?= b).
Proof.
  intros Ha Hb Hlen.
  destruct (str_digits a Ha) as (da & Hsa & Hva).
  destruct (str_digits b Hb) as (db & Hsb & Hvb).
  rewrite Hsa, Hsb in *. rewrite !string_of_uint_length in Hlen.
  pose proof (value_acc_compare da db 0%N 0%N Hlen) as Hcmp. simpl in Hcmp.
  rewrite <- Hcmp, Hva, Hvb. rewrite <- (Z2N.id a), <- (Z2N.id b) at 2 by done.
  by rewrite N2Z.inj_compare.
Qed.

(** For numbers of the same width the comparison of the texts is the
    comparison of the numbers. *)
Lemma text_between_same_width (x lo hi : Z) :
  same_width lo x -> same_width lo lo -> same_width lo hi ->
  text_between (str x) (str lo) (str hi) = true <-> lo <= x <= hi.
Proof.
  intros [Hx Hlx] [Hlo _] [Hhi Hlh]. unfold text_between, String.leb.
  rewrite !str_compare by congruence.
  assert (Hle : forall a b,
             match a ?= b with Gt => false | _ => true end = true <-> a <= b).
  { intros a b. destruct (Z.compare_spec a b); split; intros; (lia || done). }
  by rewrite andb_true_iff, !Hle.
Qed.

(** X25 (list_entities, the time window): where the bounds and the creation
    times are natural numbers of one and the same width, the unlimited
    listing holds exactly the image entities of the wanted libraries whose
    creation time lies within the bounds. *)
Lemma list_entities_window_of_same_width db library_ids start end_ :
  same_width start start -> same_width start end_ ->
  Forall (fun e => same_width start (ent_file_created_at e)) (t_entities db) ->
  forall e, e ∈ list_entities db (-1) library_ids (Some start) (Some end_)
            <-> listed db library_ids start end_ e.
Proof.
  intros Hstart Hend Hall e. rewrite Forall_forall in Hall.
  unfold list_entities, sql_limit, listed, within_window.
  rewrite decide_True by lia. rewrite merge_sort_Permutation.
  rewrite list_elem_of_filter.
  split.
  - intros [Hwin Hin].
    assert (e ∈ t_entities db) as He.
    { destruct library_ids as [[|i ids]|];
        repeat (apply list_elem_of_filter in Hin as [? Hin]); done. }
    apply text_between_same_width in Hwin; [ | by apply Hall | done | done ].
    destruct library_ids as [[|i ids]|];
      repeat (apply list_elem_of_filter in Hin as [? Hin]); done.
  - intros (He & Hgroup & Hlib & Hwin). split.
    + apply text_between_same_width; [ by apply Hall | done | done | done ].
    + destruct library_ids as [[|i ids]|];
        repeat (apply list_elem_of_filter; split; [done | ]); done.
Qed.

Lemma list_entities_window_of_same_width_witness :
  same_width 1500000000 1700000000
  /\ forall e, e ∈ list_entities photo_store (-1) None (Some 1500000000) (Some 1700000000)
               <-> listed photo_store None 1500000000 1700000000 e.
Proof.
  split; [ split; [lia | reflexivity] | ].
  apply (list_entities_window_of_same_width photo_store None 1500000000 1700000000).
  - split; [lia | reflexivity].
  - split; [lia | reflexivity].
  - repeat constructor; simpl; lia.
Defined.

(** C8 fails on the code: the window is compared as text.  The screenshot
    created at 1600000000 lies within the bounds 900000000 and 1700000000,
    but ["1600000000"] sorts before ["900000000"], so the listing for that
    window is empty although the unrestricted listing returns the entity. *)
Theorem list_entities_drops_an_entity_inside_the_window :
  Forall (within_window 900000000 1700000000) (t_entities photo_store)
  /\ list_entities photo_store 200 None None None = t_entities photo_store
  /\ list_entities photo_store 200 None (Some 900000000) (Some 1700000000) = [].
Proof.
  split_and!.
  - apply Forall_singleton. unfold within_window. simpl. lia.
  - vm_compute. reflexivity.
  - vm_compute. reflexivity.
Qed.

(** With bounds of as many digits as the creation times the same screenshot
    is found. *)
Lemma list_entities_ten_digit_window :
  list_entities photo_store 200 None (Some 1500000000) (Some 1700000000)
  = t_entities photo_store.
Proof. vm_compute. reflexivity. Qed.

(** ** Touching and removing entities *)

Lemma first_filter_absent entity_id db :
  entity_absent entity_id db ->
  first (filter (fun e => ent_id e = entity_id) (t_entities db)) = None.
Proof.
  intros Habs. destruct (first _) as [e|] eqn:Hq; [ | done ].
  apply first_filter_Some in Hq as [Hin Hid].
  unfold entity_absent in Habs. rewrite Forall_forall in Habs. by destruct (Habs e Hin).
Qed.

Lemma first_filter_map_id (f : EntityModel -> EntityModel) other (rows : list EntityModel) :
  (forall e, ent_id (f e) = ent_id e) ->
  first (filter (fun e => ent_id e = other) (map f rows))
  = f <$> first (filter (fun e => ent_id e = other) rows).
Proof.
  intros Hf. unfold first. induction rows as [|e es IH]; [done | ].
  simpl. rewrite !filter_cons, Hf.
  by destruct (decide (ent_id e = other)).
Qed.

Lemma set_last_scan_at_lookup entity_id other db :
  first (filter (fun e => ent_id e = other) (t_entities (set_last_scan_at entity_id db)))
  = (fun e => if decide (ent_id e = entity_id) then scanned_at (db_now db) e else e)
    <$> first (filter (fun e => ent_id e = other) (t_entities db)).
Proof.
  unfold set_last_scan_at. simpl. apply first_filter_map_id.
  intros e. by destruct (decide (ent_id e = entity_id)).
Qed.

(** X1 (touch_entity, missing id): touching an entity that is not stored
    returns [False] and writes nothing; no exception is raised. *)
Theorem touch_entity_missing entity_id db :
  entity_absent entity_id db -> touch_entity entity_id db = Returns false db.
Proof.
  intros Habs. unfold touch_entity, mbind, DB_bind, get_db. simpl.
  by rewrite (first_filter_absent _ _ Habs).
Qed.

Lemma touch_entity_missing_witness : touch_entity 7 sample_store = Returns false sample_store.
Proof. apply touch_entity_missing. unfold entity_absent. simpl. repeat constructor; done. Defined.

(** X2 (touch_entity, stored id): touching a stored entity returns [True];
    read back, the entity carries the time of the call as [last_scan_at] and
    is otherwise as before; every other entity reads as before, and no tag,
    edge, metadata entry, plugin binding or status row changes. *)
Theorem touch_entity_present entity_id db :
  entity_present entity_id db ->
  exists db' before,
    touch_entity entity_id db = Returns true db'
    /\ returned (get_entity_by_id entity_id db) = Some (Some before)
    /\ returned (get_entity_by_id entity_id db')
       = Some (Some (scanned_at (db_now db) before))
    /\ (forall other, other <> entity_id ->
          returned (get_entity_by_id other db') = returned (get_entity_by_id other db))
    /\ t_tags db' = t_tags db
    /\ t_entity_tags db' = t_entity_tags db
    /\ t_metadata_entries db' = t_metadata_entries db
    /\ t_library_plugins db' = t_library_plugins db
    /\ t_entity_plugin_status db' = t_entity_plugin_status db.
Proof.
  intros Hpres.
  destruct (entity_present_first _ _ Hpres) as (before & Hfirst & Hid).
  exists (set_last_scan_at entity_id db), before.
  pose proof (set_last_scan_at_lookup entity_id entity_id db) as Hafter.
  rewrite Hfirst in Hafter. cbn [fmap option_fmap option_map] in Hafter.
  rewrite decide_True in Hafter by done.
  split_and!; try done.
  - unfold touch_entity, mbind, DB_bind, get_db. simpl. rewrite Hfirst. simpl.
    by rewrite Hid.
  - rewrite get_entity_by_id_eq. cbn [returned]. by rewrite Hfirst.
  - rewrite get_entity_by_id_eq. cbn [returned]. by rewrite Hafter.
  - intros other Hne. rewrite !get_entity_by_id_eq. cbn [returned].
    rewrite set_last_scan_at_lookup.
    destruct (first (filter (fun e => ent_id e = other) (t_entities db))) as [e|] eqn:He;
      [ | done ].
    simpl. apply first_filter_Some in He as [_ He].
    rewrite decide_False; [done | congruence].
Qed.

Lemma touch_entity_present_witness :
  exists db' before,
    touch_entity 2 sample_store = Returns true db'
    /\ returned (get_entity_by_id 2 sample_store) = Some (Some before)
    /\ returned (get_entity_by_id 2 db') = Some (Some (scanned_at 1000 before))
    /\ (forall other, other <> 2 ->
          returned (get_entity_by_id other db') = returned (get_entity_by_id other sample_store))
    /\ t_tags db' = t_tags sample_store
    /\ t_entity_tags db' = t_entity_tags sample_store
    /\ t_metadata_entries db' = t_metadata_entries sample_store
    /\ t_library_plugins db' = t_library_plugins sample_store
    /\ t_entity_plugin_status db' = t_entity_plugin_status sample_store.
Proof.
  apply (touch_entity_present 2 sample_store). unfold entity_present. simpl.
  apply list_elem_of_In. simpl. tauto.
Defined.

(** X3 (remove_entity, missing id): removing an entity that is not stored
    raises [ValueError("Entity with id ... not found")]; neither the store
    nor the search tables are written. *)
Theorem remove_entity_missing entity_id search db :
  entity_absent entity_id db ->
  remove_entity entity_id search db = Raises (not_found entity_id) db.
Proof.
  intros Habs. unfold remove_entity, mbind, DB_bind, get_db. simpl.
  by rewrite (first_filter_absent _ _ Habs).
Qed.

Lemma remove_entity_missing_witness :
  remove_entity 7 sample_search sample_store
  = Raises (ValueError "Entity with id 7 not found") sample_store.
Proof.
  apply (remove_entity_missing 7 sample_search sample_store).
  unfold entity_absent. simpl. repeat constructor; done.
Defined.

(** X4 (remove_entity, stored id): removing a stored entity returns; the
    rows of that id have left [entities], [entities_fts] and
    [entities_vec_v2], every other row of these three tables is kept in
    place, and removing the same id again raises the not-found error. *)
Theorem remove_entity_present entity_id search db :
  entity_present entity_id db ->
  exists search' db',
    remove_entity entity_id search db = Returns search' db'
    /\ t_entities db' = filter (fun e => ent_id e <> entity_id) (t_entities db)
    /\ entities_fts search' = filter (fun id => id <> entity_id) (entities_fts search)
    /\ entities_vec_v2 search'
       = filter (fun rowid => rowid <> entity_id) (entities_vec_v2 search)
    /\ returned (get_entity_by_id entity_id db') = Some None
    /\ remove_entity entity_id search' db' = Raises (not_found entity_id) db'.
Proof.
  intros Hpres.
  destruct (entity_present_first _ _ Hpres) as (entity & Hfirst & Hid).
  assert (Habs : entity_absent entity_id
            (store_of (db_delete_entity entity db))).
  { unfold entity_absent, db_delete_entity, modify. simpl. rewrite Hid.
    apply Forall_forall. by intros e [He _]%list_elem_of_filter. }
  eexists _, (store_of (db_delete_entity entity db)). split_and!.
  - unfold remove_entity, mbind, DB_bind, get_db. simpl. rewrite Hfirst. simpl.
    reflexivity.
  - simpl. by rewrite Hid.
  - done.
  - done.
  - by rewrite (get_entity_by_id_absent _ _ Habs).
  - unfold remove_entity, mbind, DB_bind, get_db.
    cbn [t_entities]. by rewrite (first_filter_absent _ _ Habs).
Qed.

Lemma remove_entity_present_witness :
  exists search' db',
    remove_entity 2 sample_search sample_store = Returns search' db'
    /\ t_entities db' = filter (fun e => ent_id e <> 2) (t_entities sample_store)
    /\ entities_fts search' = [1; 3]
    /\ entities_vec_v2 search' = [1; 3]
    /\ returned (get_entity_by_id 2 db') = Some None
    /\ remove_entity 2 search' db' = Raises (not_found 2) db'.
Proof.
  apply (remove_entity_present 2 sample_search sample_store).
  unfold entity_present. simpl. apply list_elem_of_In. simpl. tauto.
Defined.

(** ** Binding plugins to libraries *)

Lemma delete_first_app_last {A} (P : A -> Prop) `{!forall x, Decision (P x)}
    (rows : list A) (x : A) :
  filter P rows = [] -> P x -> delete_first P (rows ++ [x]) = rows.
Proof.
  intros Hnone HP. induction rows as [|r rows IH]; simpl.
  - by rewrite decide_True.
  - rewrite filter_cons in Hnone. destruct (decide (P r)); [done | ].
    by rewrite IH.
Qed.

Lemma delete_first_single {A} (P : A -> Prop) `{!forall x, Decision (P x)}
    (rows : list A) :
  length (filter P rows) = 1%nat ->
  delete_first P rows = filter (fun x => ~ P x) rows.
Proof.
  induction rows as [|r rows IH]; simpl; [done | ].
  rewrite !filter_cons. destruct (decide (P r)) as [HP|HP]; simpl.
  - intros Hlen. rewrite decide_False by tauto.
    assert (Hnil : filter P rows = []) by (apply nil_length_inv; lia).
    clear IH Hlen. induction rows as [|r' rows IH]; [done | ].
    rewrite filter_cons in Hnil. rewrite filter_cons.
    destruct (decide (P r')); [done | ].
    rewrite decide_True by done. f_equal. by apply IH.
  - intros Hlen. rewrite decide_True by done. f_equal. by apply IH.
Qed.

(** X5 (remove_plugin_from_library, no binding): when no row binds the
    plugin to the library the call raises
    [ValueError("Plugin ... not found in library ...")] and writes nothing. *)
Theorem remove_plugin_from_library_unbound library_id p db :
  binding_rows db library_id p = [] ->
  remove_plugin_from_library library_id p db = Raises (not_in_library p library_id) db.
Proof.
  unfold binding_rows. intros Hnone.
  unfold remove_plugin_from_library, mbind, DB_bind, get_db. simpl.
  by rewrite Hnone.
Qed.

Lemma remove_plugin_from_library_unbound_witness :
  remove_plugin_from_library 2 1 sample_store
  = Raises (ValueError "Plugin 1 not found in library 2") sample_store.
Proof. apply (remove_plugin_from_library_unbound 2 1 sample_store). reflexivity. Defined.

(** X6 (add_plugin_to_library, remove_plugin_from_library): binding a
    plugin that was not bound to the library and then removing the binding
    returns and leaves the store exactly as it was. *)
Theorem add_then_remove_plugin library_id p db :
  binding_rows db library_id p = [] ->
  (add_plugin_to_library library_id p;; remove_plugin_from_library library_id p) db
  = Returns tt db.
Proof.
  unfold binding_rows. intros Hnone.
  unfold add_plugin_to_library, remove_plugin_from_library, db_commit, modify.
  unfold mbind, DB_bind, get_db, mret, DB_ret. cbn [with_library_plugins t_library_plugins].
  rewrite filter_app, Hnone. rewrite filter_cons, decide_True by done. simpl.
  unfold with_library_plugins. cbn [t_library_plugins t_entities t_tags t_entity_tags t_metadata_entries t_plugins t_entity_plugin_status db_now].
  rewrite delete_first_app_last by done. by destruct db.
Qed.

Lemma add_then_remove_plugin_witness :
  (add_plugin_to_library 2 1;; remove_plugin_from_library 2 1) sample_store
  = Returns tt sample_store.
Proof. apply (add_then_remove_plugin 2 1 sample_store). reflexivity. Defined.

(** X7 (add_plugin_to_library, get_pending_plugins): after a plugin is bound
    to a library, the pending plugins of any entity are those pending before
    and, for that library, the bound plugin when it is a stored plugin that
    has no status row for the entity; binding an id that names no stored
    plugin makes nothing pending. *)
Theorem add_plugin_to_library_pending library_id p db :
  exists db',
    add_plugin_to_library library_id p db = Returns tt db'
    /\ forall entity_id lib x,
         x ∈ get_pending_plugins entity_id lib db'
         <-> x ∈ get_pending_plugins entity_id lib db
             \/ (lib = library_id /\ x = p /\ p ∈ map plugin_id (t_plugins db)
                 /\ ~ has_status db entity_id p).
Proof.
  eexists. split; [reflexivity | ].
  intros entity_id lib x. rewrite !elem_of_get_pending_plugins.
  unfold plugin_bound, has_status, status_rows. simpl.
  split.
  - intros [(plugin & lp & Hpl & Hx & Hlp & Hlpp & Hlpl) Hst].
    apply elem_of_app in Hlp as [Hlp | Hlp%list_elem_of_singleton].
    + left. split; [ | done ]. by exists plugin, lp.
    + right. subst lp. simpl in *. subst. split_and!; try done.
      apply list_elem_of_fmap. by exists plugin.
  - intros [[(plugin & lp & Hpl & Hx & Hlp & Hlpp & Hlpl) Hst]
           | (-> & -> & (plugin & Hx & Hpl)%list_elem_of_fmap & Hst)].
    + split; [ | done ]. exists plugin, lp. split_and!; try done.
      apply elem_of_app. by left.
    + split; [ | done ].
      exists plugin, {| lp_library_id := library_id; lp_plugin_id := p |}.
      split_and!; try done. apply elem_of_app. right. by apply list_elem_of_singleton.
Qed.

(** X8 (remove_plugin_from_library, get_pending_plugins): removing the one
    binding of a plugin to a library returns, and afterwards the plugin is
    pending for no entity in that library; every other pending plugin, in
    this and in every other library, stays pending. *)
Theorem remove_plugin_from_library_pending library_id p db :
  length (binding_rows db library_id p) = 1%nat ->
  exists db',
    remove_plugin_from_library library_id p db = Returns tt db'
    /\ forall entity_id lib x,
         x ∈ get_pending_plugins entity_id lib db'
         <-> x ∈ get_pending_plugins entity_id lib db
             /\ ~ (lib = library_id /\ x = p).
Proof.
  unfold binding_rows. intros Hone.
  exists (with_library_plugins
            (filter (fun lp => ~ (lp_library_id lp = library_id /\ lp_plugin_id lp = p))) db).
  split.
  - unfold remove_plugin_from_library, mbind, DB_bind, get_db. simpl.
    destruct (filter _ (t_library_plugins db)) as [|lp rest] eqn:Hq; [done | ].
    simpl. unfold modify, with_library_plugins, db_commit, mret, DB_ret.
    by rewrite delete_first_single by (by rewrite Hq).
  - intros entity_id lib x. rewrite !elem_of_get_pending_plugins.
    unfold plugin_bound, has_status, status_rows. simpl.
    split.
    + intros [(plugin & lp & Hpl & Hx & [Hne Hlp]%list_elem_of_filter & Hlpp & Hlpl) Hst].
      split_and!; try done.
      * by exists plugin, lp.
      * intros [-> ->]. by apply Hne.
    + intros [[(plugin & lp & Hpl & Hx & Hlp & Hlpp & Hlpl) Hst] Hne].
      split; [ | done ]. exists plugin, lp. split_and!; try done.
      apply list_elem_of_filter. split; [ | done ].
      intros [? ?]. apply Hne. split; congruence.
Qed.

Lemma remove_plugin_from_library_pending_witness :
  exists db',
    remove_plugin_from_library 1 2 sample_store = Returns tt db'
    /\ forall entity_id lib x,
         x ∈ get_pending_plugins entity_id lib db'
         <-> x ∈ get_pending_plugins entity_id lib sample_store
             /\ ~ (lib = 1 /\ x = 2).
Proof. apply (remove_plugin_from_library_pending 1 2 sample_store). reflexivity. Defined.

(** X9 (record_plugin_processed, get_pending_plugins): recording that a
    plugin processed an entity takes that plugin, and only it, out of the
    pending plugins of that entity; the pending plugins of every other
    entity are unchanged. *)
Theorem record_plugin_processed_pending entity_id p db :
  exists db',
    record_plugin_processed entity_id p db = Returns tt db'
    /\ forall e lib x,
         x ∈ get_pending_plugins e lib db'
         <-> x ∈ get_pending_plugins e lib db /\ ~ (e = entity_id /\ x = p).
Proof.
  exists (merge_status entity_id p db). split; [apply record_plugin_processed_eq | ].
  intros e lib x. rewrite !elem_of_get_pending_plugins.
  assert (Hst : has_status (merge_status entity_id p db) e x
                <-> has_status db e x \/ (e = entity_id /\ x = p)).
  { unfold merge_status.
    destruct (decide (Exists _ _)) as [Hex|Hex].
    - split; [by left | ]. intros [? | [-> ->]]; [done | ].
      by apply status_rows_Exists.
    - unfold has_status, status_rows. simpl. rewrite filter_app, filter_cons. simpl.
      destruct (decide (entity_id = e /\ p = x)) as [[-> ->] | Hne].
      + split; [ by right | ]. intros _. by destruct (filter _ _).
      + rewrite filter_nil, app_nil_r. split; [by left | ].
        intros [? | [-> ->]]; [done | ]. by destruct Hne. }
  assert (Hb : plugin_bound (merge_status entity_id p db) lib x <-> plugin_bound db lib x).
  { unfold merge_status. by destruct (decide (Exists _ _)). }
  rewrite Hst, Hb. tauto.
Qed.

(** ** What the tag-writing calls return and what they leave alone *)

Lemma ends_in_refresh_base e : ends_in_refresh e (db_refresh e).
Proof.
  intros db row db'. unfold db_refresh. rewrite (bind_returns _ _ _ _ _ (get_entity_by_id_eq _ _)).
  unfold mret, DB_ret. by intros [= <- <-].
Qed.

Lemma ends_in_refresh_bind {A} e (m : DB A) (k : A -> DB EntityModel) :
  (forall a, ends_in_refresh e (k a)) -> ends_in_refresh e (m ≫= k).
Proof.
  intros Hk db row db'. unfold mbind, DB_bind.
  destruct (m db) as [a db1|]; [ | done ]. apply Hk.
Qed.

Ltac solve_ends_in_refresh :=
  repeat first [apply ends_in_refresh_base | apply ends_in_refresh_bind; intros ?].

(** The row a refreshing call returns is the one a later read finds. *)
Lemma refreshed_row e call db row db' :
  ends_in_refresh e call -> call db = Returns row db' ->
  entity_present (ent_id e) db' ->
  first (filter (fun x => ent_id x = ent_id e) (t_entities db')) = Some row.
Proof.
  intros Hr Hcall (found & Hq & _)%entity_present_first.
  apply Hr in Hcall. rewrite Hq in Hcall. by rewrite Hq, Hcall.
Qed.

Lemma linked_store_clock entity_id name db :
  db_now (linked_store entity_id name db) = db_now db.
Proof.
  unfold linked_store, tag_for. by destruct (first _).
Qed.

Lemma linked_fold_frame entity_id names db :
  let db' := foldl (fun db name => linked_store entity_id name db) db names in
  t_entities db' = t_entities db
  /\ t_metadata_entries db' = t_metadata_entries db
  /\ db_now db' = db_now db.
Proof.
  revert db. induction names as [|name names IH]; intros db; simpl; [done | ].
  destruct (IH (linked_store entity_id name db)) as (-> & -> & ->).
  destruct (linked_store_frame entity_id name db) as (-> & -> & _).
  by rewrite linked_store_clock.
Qed.

(** Linking a tag to one entity leaves the tags of every other entity as
    they are: the new edge belongs to the linked entity, and a tag created on
    the way has an id no edge refers to yet. *)
Lemma linked_store_other entity_id other name db :
  store_wf db -> other <> entity_id ->
  tag_names_of other (linked_store entity_id name db) = tag_names_of other db.
Proof.
  intros Hwf Hne. unfold linked_store.
  destruct (tag_for name db) as [tag db1] eqn:Htf.
  apply tag_for_spec in Htf as (_ & _ & _ & Hedges & _ & _ & Hcase).
  unfold tag_names_of, entity_tags_of. simpl.
  rewrite filter_app, filter_cons. simpl.
  rewrite decide_False by done. rewrite filter_nil, app_nil_r, Hedges.
  destruct Hcase as [[-> _] | (-> & Hid & _)]; [done | ].
  rewrite filter_app, filter_cons.
  rewrite decide_False; [ by rewrite filter_nil, app_nil_r | ].
  intros (et & Htag & [_ Het]%list_elem_of_filter)%list_elem_of_fmap.
  destruct Hwf as [_ _ Hfk _]. rewrite Forall_forall in Hfk.
  apply (next_id_not_in (map tag_id (t_tags db))).
  rewrite <- Hid, Htag. by apply Hfk.
Qed.

Lemma linked_fold_other entity_id other names db :
  store_wf db -> entity_present entity_id db -> other <> entity_id ->
  tag_names_of other (foldl (fun db name => linked_store entity_id name db) db names)
  = tag_names_of other db.
Proof.
  intros Hwf Hpres Hne. revert db Hwf Hpres.
  induction names as [|name names IH]; intros db Hwf Hpres; simpl; [done | ].
  destruct (linked_store_spec entity_id name db Hwf Hpres) as (Hwf1 & _ & _).
  rewrite IH; [ by apply linked_store_other | done | ].
  unfold entity_present. by destruct (linked_store_frame entity_id name db) as (-> & _).
Qed.

Lemma delete_edges_other entity_id other db :
  other <> entity_id ->
  tag_names_of other (with_entity_tags (filter (fun et => et_entity_id et <> entity_id)) db)
  = tag_names_of other db.
Proof.
  intros Hne. unfold tag_names_of, entity_tags_of. simpl.
  rewrite list_filter_filter.
  rewrite (list_filter_iff (fun et => et_entity_id et = other /\ et_entity_id et <> entity_id)
             (fun et => et_entity_id et = other)); [done | ].
  intros et. split; [tauto | ]. intros Het. split; [done | congruence].
Qed.

(** The row read back once [last_scan_at] has been set on a store whose
    entities are those of [db]. *)
Lemma stamped_row entity_id db db1 before :
  t_entities db1 = t_entities db -> db_now db1 = db_now db ->
  first (filter (fun e => ent_id e = entity_id) (t_entities db)) = Some before ->
  first (filter (fun e => ent_id e = entity_id) (t_entities (set_last_scan_at entity_id db1)))
  = Some (scanned_at (db_now db) before).
Proof.
  intros Hent Hnow Hq. rewrite set_last_scan_at_lookup, Hent, Hq, Hnow.
  cbn [fmap option_fmap option_map].
  apply first_filter_Some in Hq as [_ Hid]. by rewrite decide_True.
Qed.

Lemma update_entity_tags_refreshes entity_id tags db row db' :
  update_entity_tags entity_id tags db = Returns row db' ->
  entity_present entity_id db' ->
  first (filter (fun x => ent_id x = entity_id) (t_entities db')) = Some row.
Proof.
  unfold update_entity_tags. rewrite (bind_returns _ _ _ _ _ (get_entity_by_id_eq _ _)).
  destruct (first _) as [db_entity|] eqn:Hq; [ | done ].
  apply first_filter_Some in Hq as [_ <-]. intros Hcall Hpres.
  eapply refreshed_row; [ | exact Hcall | exact Hpres ]. solve_ends_in_refresh.
Qed.

Lemma add_new_tags_refreshes entity_id tags db row db' :
  add_new_tags entity_id tags db = Returns row db' ->
  entity_present entity_id db' ->
  first (filter (fun x => ent_id x = entity_id) (t_entities db')) = Some row.
Proof.
  unfold add_new_tags. rewrite (bind_returns _ _ _ _ _ (get_entity_by_id_eq _ _)).
  destruct (first _) as [db_entity|] eqn:Hq; [ | done ].
  apply first_filter_Some in Hq as [_ <-]. intros Hcall Hpres.
  eapply refreshed_row; [ | exact Hcall | exact Hpres ]. solve_ends_in_refresh.
Qed.

(** X10 (update_entity_tags): on a stored entity the call returns the entity
    as a later read finds it, stamped with the time of the call and otherwise
    as before; afterwards the names of its tags are exactly the listed names,
    and the tags of every other entity are as before. *)
Theorem update_entity_tags_replaces_the_tags entity_id tags db :
  store_wf db -> entity_present entity_id db ->
  exists row db' before,
    update_entity_tags entity_id tags db = Returns row db'
    /\ returned (get_entity_by_id entity_id db) = Some (Some before)
    /\ row = scanned_at (db_now db) before
    /\ returned (get_entity_by_id entity_id db') = Some (Some row)
    /\ (forall m, m ∈ tag_names_of entity_id db' <-> m ∈ tags)
    /\ (forall other, other <> entity_id ->
          tag_names_of other db' = tag_names_of other db).
Proof.
  intros Hwf Hpres.
  destruct (update_entity_tags_store entity_id tags db Hpres) as [row Hcall].
  destruct (entity_present_first _ _ Hpres) as (before & Hq & Hid).
  destruct (replaced_tags_store_ok entity_id tags db Hwf Hpres) as (_ & _ & _ & Hnames).
  exists row, (replaced_tags_store entity_id tags db), before.
  assert (Hrow : first (filter (fun e => ent_id e = entity_id)
                          (t_entities (replaced_tags_store entity_id tags db)))
                 = Some (scanned_at (db_now db) before)).
  { unfold replaced_tags_store.
    destruct (linked_fold_frame entity_id tags
                (with_entity_tags (filter (fun et => et_entity_id et <> entity_id)) db))
      as (Hent & _ & Hnow).
    by apply stamped_row. }
  assert (Hpres' : entity_present entity_id (replaced_tags_store entity_id tags db)).
  { unfold entity_present. apply list_elem_of_fmap.
    exists (scanned_at (db_now db) before). split; [done | ].
    by apply first_filter_Some in Hrow as [? _]. }
  pose proof (update_entity_tags_refreshes _ _ _ _ _ Hcall Hpres') as Hrow'.
  rewrite Hrow in Hrow'. injection Hrow' as <-.
  split_and!; try done.
  - rewrite get_entity_by_id_eq. cbn [returned]. by rewrite Hq.
  - rewrite get_entity_by_id_eq. cbn [returned]. by rewrite Hrow.
  - intros other Hne. unfold replaced_tags_store.
    rewrite (same_tag_view_names other _ _ (set_last_scan_at_view entity_id _)).
    destruct (delete_edges_spec entity_id db) as (Hwf0 & _ & _ & Hpres0 & _).
    rewrite linked_fold_other by auto. by apply delete_edges_other.
Qed.

Lemma update_entity_tags_replaces_the_tags_witness :
  exists row db' before,
    update_entity_tags 2 ["cat"; "dog"]%string sample_store = Returns row db'
    /\ returned (get_entity_by_id 2 sample_store) = Some (Some before)
    /\ row = scanned_at 1000 before
    /\ returned (get_entity_by_id 2 db') = Some (Some row)
    /\ (forall m, m ∈ tag_names_of 2 db' <-> m ∈ ["cat"; "dog"]%string)
    /\ (forall other, other <> 2 -> tag_names_of other db' = tag_names_of other sample_store).
Proof.
  apply (update_entity_tags_replaces_the_tags 2 ["cat"; "dog"]%string sample_store).
  - split; simpl; constructor.
  - unfold entity_present. simpl. apply list_elem_of_In. simpl. tauto.
Defined.

(** X11 (add_new_tags): on a stored entity the call returns the entity as a
    later read finds it, stamped with the time of the call; afterwards the
    names of its tags are those it had and the listed ones, no tag is
    detached, and the tags of every other entity are as before.  When every
    listed name is attached already, no tag and no edge is written. *)
Theorem add_new_tags_only_adds entity_id tags db :
  store_wf db -> entity_present entity_id db ->
  exists row db' before,
    add_new_tags entity_id tags db = Returns row db'
    /\ returned (get_entity_by_id entity_id db) = Some (Some before)
    /\ row = scanned_at (db_now db) before
    /\ returned (get_entity_by_id entity_id db') = Some (Some row)
    /\ (forall m, m ∈ tag_names_of entity_id db'
                  <-> m ∈ tag_names_of entity_id db \/ m ∈ tags)
    /\ (forall other, other <> entity_id ->
          tag_names_of other db' = tag_names_of other db)
    /\ ((forall m, m ∈ tags -> m ∈ tag_names_of entity_id db) ->
        t_tags db' = t_tags db /\ t_entity_tags db' = t_entity_tags db).
Proof.
  intros Hwf Hpres.
  destruct (add_new_tags_store entity_id tags db Hpres) as [row Hcall].
  destruct (entity_present_first _ _ Hpres) as (before & Hq & Hid).
  destruct (added_tags_store_ok entity_id tags db Hwf Hpres) as (_ & _ & _ & Hnames).
  exists row, (added_tags_store entity_id tags db), before.
  assert (Hrow : first (filter (fun e => ent_id e = entity_id)
                          (t_entities (added_tags_store entity_id tags db)))
                 = Some (scanned_at (db_now db) before)).
  { unfold added_tags_store.
    destruct (linked_fold_frame entity_id
                (elements ((list_to_set tags : gset string)
                           ∖ list_to_set (tag_names_of entity_id db))) db)
      as (Hent & _ & Hnow).
    by apply stamped_row. }
  assert (Hpres' : entity_present entity_id (added_tags_store entity_id tags db)).
  { unfold entity_present. apply list_elem_of_fmap.
    exists (scanned_at (db_now db) before). split; [done | ].
    by apply first_filter_Some in Hrow as [? _]. }
  pose proof (add_new_tags_refreshes _ _ _ _ _ Hcall Hpres') as Hrow'.
  rewrite Hrow in Hrow'. injection Hrow' as <-.
  split_and!; try done.
  - rewrite get_entity_by_id_eq. cbn [returned]. by rewrite Hq.
  - rewrite get_entity_by_id_eq. cbn [returned]. by rewrite Hrow.
  - intros other Hne. unfold added_tags_store.
    rewrite (same_tag_view_names other _ _ (set_last_scan_at_view entity_id _)).
    by apply linked_fold_other.
  - intros Hall. unfold added_tags_store.
    assert (Hnone : (list_to_set tags : gset string)
                    ∖ list_to_set (tag_names_of entity_id db) = ∅).
    { apply set_eq. intros m.
      rewrite elem_of_difference, !elem_of_list_to_set.
      split; [ | by intros ?%elem_of_empty ]. intros [Hm Hnot]. destruct Hnot. by apply Hall. }
    rewrite Hnone, elements_empty. done.
Qed.

Lemma add_new_tags_only_adds_witness :
  exists row db' before,
    add_new_tags 2 ["cat"; "dog"]%string sample_store = Returns row db'
    /\ returned (get_entity_by_id 2 sample_store) = Some (Some before)
    /\ row = scanned_at 1000 before
    /\ returned (get_entity_by_id 2 db') = Some (Some row)
    /\ (forall m, m ∈ tag_names_of 2 db'
                  <-> m ∈ tag_names_of 2 sample_store \/ m ∈ ["cat"; "dog"]%string)
    /\ (forall other, other <> 2 -> tag_names_of other db' = tag_names_of other sample_store)
    /\ ((forall m, m ∈ ["cat"; "dog"]%string -> m ∈ tag_names_of 2 sample_store) ->
        t_tags db' = t_tags sample_store /\ t_entity_tags db' = t_entity_tags sample_store).
Proof.
  apply (add_new_tags_only_adds 2 ["cat"; "dog"]%string sample_store).
  - split; simpl; constructor.
  - unfold entity_present. simpl. apply list_elem_of_In. simpl. tauto.
Defined.

(** ** What the metadata-writing calls return and what they leave alone *)














(** ** Creating an entity and reading it back *)



(** ** Listings *)

#[local] Instance modified_asc_trans : Transitive modified_asc.
Proof. unfold modified_asc. intros a b c ? ?. lia. Qed.
#[local] Instance modified_asc_total : Total modified_asc.
Proof. unfold modified_asc. intros a b. lia. Qed.

Lemma list_entities_candidates db limit library_ids start end_ :
  exists candidates,
    list_entities db limit library_ids start end_
    = sql_limit limit (merge_sort created_desc candidates)
    /\ forall e, e ∈ candidates
                 <-> e ∈ t_entities db /\ kept_by_list_entities library_ids start end_ e.
Proof.
  unfold list_entities, kept_by_list_entities. eexists. split; [reflexivity | ].
  intros e.
  destruct start as [start|], end_ as [end_|], library_ids as [[|i ids]|];
    rewrite ?list_elem_of_filter; tauto.
Qed.

(** X16 (list_entities): with a non-negative limit the listing holds at most
    [limit] entities, newest first, each a stored entity that the filters
    keep (the "image" group, the given libraries when some are given, the
    window as the texts compare); an entity that the filters keep is left
    out only when the limit is reached, and then every listed entity is at
    least as new. *)
Theorem list_entities_keeps_the_newest db limit library_ids start end_ :
  0 <= limit ->
  let result := list_entities db limit library_ids start end_ in
  StronglySorted created_desc result
  /\ (length result <= Z.to_nat limit)%nat
  /\ (forall e, e ∈ result ->
        e ∈ t_entities db /\ kept_by_list_entities library_ids start end_ e)
  /\ (forall e, e ∈ t_entities db -> kept_by_list_entities library_ids start end_ e ->
        e ∉ result ->
        length result = Z.to_nat limit
        /\ forall x, x ∈ result -> ent_file_created_at e <= ent_file_created_at x).
Proof.
  intros Hlimit. cbv zeta.
  destruct (list_entities_candidates db limit library_ids start end_)
    as (candidates & -> & Hcand).
  unfold sql_limit. rewrite decide_False by lia.
  destruct (take_sorted_spec created_desc (Z.to_nat limit) candidates)
    as (Hsub & Hlen & Hsorted & Hnewest).
  split_and!; [done | lia | | ].
  - intros e He. apply Hcand. by apply Hsub.
  - intros e He Hkept Hnot.
    assert (Hc : e ∈ candidates) by (by apply Hcand).
    split; [ | intros x Hx; by apply (Hnewest e x) ].
    rewrite Hlen. apply Nat.min_l.
    destruct (decide (Z.to_nat limit <= length candidates)%nat) as [? | Hshort]; [done | ].
    destruct Hnot. rewrite take_ge by (rewrite merge_sort_Permutation; lia).
    by rewrite merge_sort_Permutation.
Qed.

Lemma list_entities_keeps_the_newest_witness :
  let result := list_entities sample_store 2 (Some [1]) None None in
  StronglySorted created_desc result
  /\ (length result <= 2)%nat
  /\ (forall e, e ∈ result ->
        e ∈ t_entities sample_store /\ kept_by_list_entities (Some [1]) None None e)
  /\ (forall e, e ∈ t_entities sample_store -> kept_by_list_entities (Some [1]) None None e ->
        e ∉ result ->
        length result = 2%nat
        /\ forall x, x ∈ result -> ent_file_created_at e <= ent_file_created_at x).
Proof. apply (list_entities_keeps_the_newest sample_store 2 (Some [1]) None None). lia. Defined.

Lemma folder_id_query like library_id folder_id path_prefix (rows : list EntityModel) :
  match path_prefix with
  | Some path_prefix =>
    if decide (path_prefix = ""%string)
    then filter (fun e => ent_folder_id e = folder_id /\ ent_library_id e = library_id) rows
    else filter (fun e => like (ent_filepath e) (path_prefix +:+ "%") = true)
           (filter (fun e => ent_folder_id e = folder_id /\ ent_library_id e = library_id)
                   rows)
  | None => filter (fun e => ent_folder_id e = folder_id /\ ent_library_id e = library_id) rows
  end
  = filter (kept_by_folder_listing like library_id folder_id path_prefix) rows.
Proof.
  unfold kept_by_folder_listing.
  destruct path_prefix as [prefix|].
  - destruct (decide (prefix = ""%string)) as [-> | Hne].
    + apply list_filter_iff. intros e. split; [ by intros ?; split; [ | left ] | tauto ].
    + rewrite list_filter_filter. apply list_filter_iff. intros e.
      split; [ intros [? ?]; split; [done | by right] | ].
      intros [? [? | ?]]; done.
  - apply list_filter_iff. tauto.
Qed.

Lemma get_entities_of_folder_eq like library_id folder_id db limit offset path_prefix :
  get_entities_of_folder like library_id folder_id db limit offset path_prefix
  = (merge_sort modified_asc
       (filter (fun e => ent_id e ∈ map ent_id
                           (folder_page like library_id folder_id db limit offset path_prefix))
               (t_entities db)),
     Z.of_nat (length (filter (kept_by_folder_listing like library_id folder_id path_prefix)
                              (t_entities db)))).
Proof.
  unfold get_entities_of_folder, folder_page. cbv zeta.
  by rewrite folder_id_query.
Qed.

Lemma sublist_sql_limit {A} (n : Z) (rows : list A) : sql_limit n rows `sublist_of` rows.
Proof. unfold sql_limit. destruct (decide (n < 0)); [done | apply sublist_take]. Qed.

(** The rows whose id is on a page are the rows of the page, when ids are
    unique. *)
Lemma rows_of_page_ids (rows page : list EntityModel) :
  NoDup (map ent_id rows) -> NoDup page -> page ⊆ rows ->
  filter (fun e => ent_id e ∈ map ent_id page) rows ≡ₚ page.
Proof.
  intros Hids Hnd Hsub. apply NoDup_Permutation; [ | done | ].
  - apply NoDup_filter. by apply (NoDup_fmap_1 ent_id).
  - intros e. rewrite list_elem_of_filter. split.
    + intros [(y & Hid & Hy)%list_elem_of_fmap He].
      by rewrite (NoDup_fmap_eq ent_id rows e y Hids He (Hsub y Hy) Hid).
    + intros He. split; [ | by apply Hsub ]. apply list_elem_of_fmap. by exists e.
Qed.

(** X17 (get_entities_of_folder): when entity ids are unique, the entities
    returned are those of the requested page: the entities of the folder and
    library (that match the path pattern, when a non-empty prefix is given),
    in ascending order of modification time, without the first [offset] and
    cut at [limit].  The count returned is the number of all entities the
    filters keep, whatever the limit and the offset. *)
Theorem get_entities_of_folder_page like library_id folder_id db limit offset path_prefix :
  NoDup (map ent_id (t_entities db)) ->
  let '(entities, total_count) :=
    get_entities_of_folder like library_id folder_id db limit offset path_prefix in
  entities ≡ₚ folder_page like library_id folder_id db limit offset path_prefix
  /\ StronglySorted modified_asc entities
  /\ Forall (fun e => e ∈ t_entities db
                      /\ kept_by_folder_listing like library_id folder_id path_prefix e)
            entities
  /\ total_count
     = Z.of_nat (length (filter (kept_by_folder_listing like library_id folder_id path_prefix)
                                (t_entities db)))
  /\ (0 <= limit -> 0 <= offset ->
      Z.of_nat (length entities) = Z.min limit (Z.max 0 (total_count - offset))).
Proof.
  intros Hids. rewrite get_entities_of_folder_eq.
  set (kept := filter (kept_by_folder_listing like library_id folder_id path_prefix)
                      (t_entities db)).
  set (page := folder_page like library_id folder_id db limit offset path_prefix).
  assert (Hsubl : page `sublist_of` merge_sort modified_asc kept).
  { unfold page, folder_page. fold kept. etrans; [apply sublist_sql_limit | ].
    unfold sql_offset. apply sublist_drop. }
  assert (Hndk : NoDup kept).
  { unfold kept. apply NoDup_filter. by apply (NoDup_fmap_1 ent_id). }
  assert (Hnd : NoDup page).
  { eapply sublist_NoDup; [ | exact Hsubl ]. by rewrite merge_sort_Permutation. }
  assert (Hsub : forall e, e ∈ page ->
            e ∈ t_entities db
            /\ kept_by_folder_listing like library_id folder_id path_prefix e).
  { intros e He. eapply elem_of_sublist in He; [ | exact Hsubl ].
    rewrite merge_sort_Permutation in He. unfold kept in He.
    apply list_elem_of_filter in He. tauto. }
  assert (Hperm : merge_sort modified_asc
                    (filter (fun e => ent_id e ∈ map ent_id page) (t_entities db))
                  ≡ₚ page).
  { rewrite merge_sort_Permutation. apply rows_of_page_ids; [done | done | ].
    intros e He. by apply Hsub. }
  split_and!.
  - done.
  - apply StronglySorted_merge_sort; apply _.
  - apply Forall_forall. intros e He. apply Hsub. by rewrite <- Hperm.
  - done.
  - intros Hlimit Hoffset. rewrite Hperm. unfold page, folder_page. fold kept.
    unfold sql_limit, sql_offset. rewrite decide_False by lia.
    rewrite length_take, length_drop, merge_sort_Permutation. lia.
Qed.

Lemma get_entities_of_folder_page_witness :
  let '(entities, total_count) :=
    get_entities_of_folder prefix_like 1 1 sample_store 2 1 (Some "/screenshots/"%string) in
  entities ≡ₚ folder_page prefix_like 1 1 sample_store 2 1 (Some "/screenshots/"%string)
  /\ StronglySorted modified_asc entities
  /\ Forall (fun e => e ∈ t_entities sample_store
                      /\ kept_by_folder_listing prefix_like 1 1
                           (Some "/screenshots/"%string) e)
            entities
  /\ total_count
     = Z.of_nat (length (filter (kept_by_folder_listing prefix_like 1 1
                                   (Some "/screenshots/"%string))
                                (t_entities sample_store)))
  /\ (0 <= 2 -> 0 <= 1 ->
      Z.of_nat (length entities) = Z.min 2 (Z.max 0 (total_count - 1))).
Proof.
  apply (get_entities_of_folder_page prefix_like 1 1 sample_store 2 1
           (Some "/screenshots/"%string)).
  simpl. repeat (constructor; [ rewrite ?elem_of_cons, ?elem_of_nil; intuition discriminate | ]).
  constructor.
Defined.

Lemma get_entities_of_folder_example :
  let '(entities, total_count) :=
    get_entities_of_folder prefix_like 1 1 sample_store 2 1 (Some "/screenshots/"%string) in
  map ent_id entities = [2; 3] /\ total_count = 5.
Proof. vm_compute. done. Qed.


(** ** Tags are shared by name *)

(** X19 (the tag loop of create_entity, update_entity, update_entity_tags and
    add_new_tags): from a store whose tags have unique ids and unique names
    and whose edges refer to stored tags and entities, every sequence of
    write calls leads to such a store: a tag name is looked up before a tag
    is created, so no call creates a second tag of a name, whatever names it
    lists and however often. *)
Theorem tags_stay_unique_by_name cs db :
  store_wf db -> store_wf (run_calls cs db).
Proof.
  intros Hwf. induction cs as [|c cs IH] using rev_ind; [done | ].
  rewrite run_calls_snoc, run_call_store_after. by apply store_after_ok.
Qed.

Lemma tags_stay_unique_by_name_witness :
  store_wf (run_calls [CreateEntity 1 (new_screenshot 10 (Some ["a"; "a"]%string));
                       UpdateEntityTags 1 ["a"; "b"; "a"]%string;
                       AddNewTags 1 ["b"; "c"]%string]
                      (empty_store 0)).
Proof. apply tags_stay_unique_by_name. split; simpl; constructor. Defined.

(** ** How the calls compose *)




(** The reads return stored entities only. *)
Lemma list_entities_stored db limit library_ids start end_ e :
  e ∈ list_entities db limit library_ids start end_ -> e ∈ t_entities db.
Proof.
  intros He. pose proof (list_entities_members db limit library_ids start end_) as Hall.
  rewrite Forall_forall in Hall. by apply Hall.
Qed.

Lemma get_entities_of_folder_stored like library_id folder_id db limit offset path_prefix e :
  e ∈ (get_entities_of_folder like library_id folder_id db limit offset path_prefix).1 ->
  e ∈ t_entities db.
Proof.
  unfold get_entities_of_folder. cbv zeta. simpl. rewrite merge_sort_Permutation.
  by intros [_ ?]%list_elem_of_filter.
Qed.

Lemma get_entity_context_stored db library_id entity_id prev next e :
  e ∈ (get_entity_context db library_id entity_id prev next).1
  \/ e ∈ (get_entity_context db library_id entity_id prev next).2 ->
  e ∈ t_entities db.
Proof.
  rewrite get_entity_context_eq.
  destruct (anchor db library_id entity_id) as [target|]; simpl.
  - destruct (take_sorted_spec created_desc (Z.to_nat prev) (earlier db library_id target))
      as (Hsub1 & _).
    destruct (take_sorted_spec created_asc (Z.to_nat next) (later db library_id target))
      as (Hsub2 & _).
    intros [He | He].
    + rewrite elem_of_reverse in He. apply Hsub1 in He.
      unfold earlier in He. by apply list_elem_of_filter in He as [_ ?].
    + apply Hsub2 in He. unfold later in He. by apply list_elem_of_filter in He as [_ ?].
  - intros [He | He]; by apply elem_of_nil in He.
Qed.

(** X27 (remove_entity and the reads): once an entity is removed, no read
    returns it: not the listing, the folder listing, the lookups by ids or
    by file paths, nor the context of any entity; and the context asked for
    the removed entity itself is empty. *)
Theorem removed_entity_is_not_read like entity_id search db :
  entity_present entity_id db ->
  exists search' db',
    remove_entity entity_id search db = Returns search' db'
    /\ (forall e, ent_id e = entity_id ->
        (forall limit library_ids start end_,
           e ∉ list_entities db' limit library_ids start end_)
        /\ (forall library_id folder_id limit offset path_prefix,
              e ∉ (get_entities_of_folder like library_id folder_id db'
                                          limit offset path_prefix).1)
        /\ (forall entity_ids, e ∉ find_entities_by_ids entity_ids db')
        /\ (forall filepaths, e ∉ get_entities_by_filepaths filepaths db')
        /\ (forall library_id other prev next,
              (e ∉ (get_entity_context db' library_id other prev next).1)
              /\ (e ∉ (get_entity_context db' library_id other prev next).2)))
    /\ (forall library_id prev next,
          get_entity_context db' library_id entity_id prev next = ([], [])).
Proof.
  intros Hpres.
  destruct (entity_present_first _ _ Hpres) as (entity & Hfirst & Hid).
  set (db' := store_of (db_delete_entity entity db)).
  assert (Hgone : forall e, ent_id e = entity_id -> e ∉ t_entities db').
  { intros e He. unfold db', db_delete_entity, modify. simpl. rewrite Hid.
    by intros [? _]%list_elem_of_filter. }
  eexists _, db'. split_and!.
  - unfold remove_entity, mbind, DB_bind, get_db. simpl. rewrite Hfirst. simpl.
    reflexivity.
  - intros e He. split_and!.
    + intros limit library_ids start end_ Hin.
      by apply (Hgone e He), (list_entities_stored _ _ _ _ _ _ Hin).
    + intros library_id folder_id limit offset path_prefix Hin.
      by apply (Hgone e He), (get_entities_of_folder_stored _ _ _ _ _ _ _ _ Hin).
    + intros entity_ids [_ Hin]%list_elem_of_filter. by apply (Hgone e He).
    + intros filepaths [_ Hin]%list_elem_of_filter. by apply (Hgone e He).
    + intros library_id other prev next.
      split; intros Hin; apply (Hgone e He);
        apply (get_entity_context_stored db' library_id other prev next); tauto.
  - intros library_id prev next. rewrite get_entity_context_eq.
    destruct (anchor db' library_id entity_id) as [target|] eqn:Ha; [ | done ].
    unfold anchor in Ha. apply first_filter_Some in Ha as [Hin [Ht _]].
    by destruct (Hgone target Ht).
Qed.

Lemma removed_entity_is_not_read_witness :
  exists search' db',
    remove_entity 3 sample_search sample_store = Returns search' db'
    /\ (forall e, ent_id e = 3 ->
        (forall limit library_ids start end_,
           e ∉ list_entities db' limit library_ids start end_)
        /\ (forall library_id folder_id limit offset path_prefix,
              e ∉ (get_entities_of_folder prefix_like library_id folder_id db'
                                          limit offset path_prefix).1)
        /\ (forall entity_ids, e ∉ find_entities_by_ids entity_ids db')
        /\ (forall filepaths, e ∉ get_entities_by_filepaths filepaths db')
        /\ (forall library_id other prev next,
              (e ∉ (get_entity_context db' library_id other prev next).1)
              /\ (e ∉ (get_entity_context db' library_id other prev next).2)))
    /\ (forall library_id prev next,
          get_entity_context db' library_id 3 prev next = ([], [])).
Proof.
  apply (removed_entity_is_not_read prefix_like 3 sample_search sample_store).
  unfold entity_present. simpl. apply list_elem_of_In. simpl. tauto.
Defined.

End CrudFacts.
